(** * Governance signal pipeline: entropy gate, coherence tracker,
      segmentation, confidence, actuation gate, invariant verifier

    A shallow embedding of the Python sources
      actuation_threshold.py, confidence.py, intelligence_gate.py,
      instrumentation.py, invariants.py, intelligence_layer.py
    and the properties their specification states about them.

    Modelling conventions.
    - A Python [float] is an exact rational ([Q]); a decimal literal such
      as [0.45] denotes the rational it spells.  [==], [<], [<=] on floats
      are [Qeq_bool] and [Qle_bool].  NaN and infinities do not exist here.
    - A Python [int] is a [Z]; a [bool] is a [bool].
    - A [str] is a [string]; its characters are the code points U+0000 to
      U+00FF, classified as CPython classifies them.
    - A [dict] with string keys is a [gmap string _]; a [set] of strings is
      a [gset string]; a [list] is a [list].
    - A raised exception is [None] in an [option] result.
    - Mutable objects (the gate, the session state, the estimator's
      function attribute) are threaded explicitly: a call takes the old
      object and returns the new one next to its result. *)

From Stdlib Require Import ZArith QArith Qminmax String Ascii List Bool Lia Lqa.
From Stdlib Require Import DecimalString.
From stdpp Require Import gmap strings list.

#[local] Set Warnings "-register-all".
#[local] Open Scope Z_scope.

(* ================================================================== *)
(** * Part I.  Definitions                                              *)
(* ================================================================== *)

(** ** Python floats *)

Module Float.

Definition leb (x y : Q) : bool := Qle_bool x y.
Definition ltb (x y : Q) : bool := negb (Qle_bool y x).
Definition eqb (x y : Q) : bool := Qeq_bool x y.

(** [min(a, b)] and [max(a, b)] keep the first argument unless the second
    is strictly smaller (resp. larger). *)
Definition py_min (a b : Q) : Q := if ltb b a then b else a.
Definition py_max (a b : Q) : Q := if ltb a b then b else a.

(** Nearest integer, ties to the even one. *)
Definition round_half_even (x : Q) : Z :=
  let n := Qnum x in
  let d := Z.pos (Qden x) in
  let q := n / d in
  match (2 * (n mod d) ?= d) with
  | Lt => q
  | Gt => q + 1
  | Eq => if Z.even q then q else q + 1
  end.

(** [round(x, ndigits)]: the nearest multiple of [10^-ndigits], ties to
    even. *)
Definition py_round (x : Q) (ndigits : nat) : Q :=
  let scale := 10 ^ Z.of_nat ndigits in
  Qmake (round_half_even (x * inject_Z scale)) (Z.to_pos scale).

(** [sum(xs)] starts from the integer [0]. *)
Definition py_sum (xs : list Q) : Q := fold_left Qplus xs 0%Q.

(** [a / n] for a float [a] and a list length [n > 0]. *)
Definition div_len (a : Q) (n : nat) : Q := (a / inject_Z (Z.of_nat n))%Q.

End Float.

(** ** Python values held in untyped dicts and in JSON records *)

Inductive pyval : Type :=
| PyNone
| PyBool (b : bool)
| PyInt (z : Z)
| PyFloat (q : Q)
| PyStr (s : string)
| PyList (l : list pyval)
| PyDict (d : gmap string pyval).

Module Py.

(** Truth value of an object in a condition. *)
Definition truthy (v : pyval) : bool :=
  match v with
  | PyNone => false
  | PyBool b => b
  | PyInt z => negb (Z.eqb z 0)
  | PyFloat q => negb (Float.eqb q 0)
  | PyStr s => negb (Nat.eqb (String.length s) 0)
  | PyList l => negb (Nat.eqb (length l) 0)
  | PyDict d => negb (Nat.eqb (size d) 0)
  end.

(** [v == s] for a string literal [s]. *)
Definition eq_str (v : pyval) (s : string) : bool :=
  match v with
  | PyStr s' => String.eqb s' s
  | _ => false
  end.

(** The number a value stands for in arithmetic and ordering, when it is
    one ([bool] is a subclass of [int]); [None] where Python raises
    [TypeError]. *)
Definition as_number (v : pyval) : option Q :=
  match v with
  | PyBool b => Some (if b then 1%Q else 0%Q)
  | PyInt z => Some (inject_Z z)
  | PyFloat q => Some q
  | _ => None
  end.

(** [d.get(k)] and [d.get(k, default)]. *)
Definition get (d : gmap string pyval) (k : string) : pyval :=
  default PyNone (d !! k).
Definition get_or (d : gmap string pyval) (k : string) (dflt : pyval) : pyval :=
  default dflt (d !! k).

End Py.

(** ** Python [str] operations *)

Module Str.

Definition code (c : ascii) : N := N_of_ascii c.

Definition in_range (lo hi : N) (c : ascii) : bool :=
  (lo <=? code c)%N && (code c <=? hi)%N.

(** [str.isspace], also the separator class of [str.split()],
    [str.strip()] and the regular expression class [\s]. *)
Definition isspace (c : ascii) : bool :=
  in_range 9 13 c || in_range 28 32 c || in_range 133 133 c
  || in_range 160 160 c.

(** The regular expression class [\w]: alphanumeric or underscore. *)
Definition isword (c : ascii) : bool :=
  in_range 48 57 c || in_range 65 90 c || in_range 95 95 c
  || in_range 97 122 c || in_range 170 170 c || in_range 178 179 c
  || in_range 181 181 c || in_range 185 186 c || in_range 188 190 c
  || in_range 192 214 c || in_range 216 246 c || in_range 248 255 c.

Definition lower_char (c : ascii) : ascii :=
  if in_range 65 90 c || in_range 192 214 c || in_range 216 222 c
  then ascii_of_N (code c + 32)
  else c.

Definition chars (s : string) : list ascii := list_ascii_of_string s.
Definition of_chars (l : list ascii) : string := string_of_list_ascii l.

(** [s.lower()] *)
Definition lower (s : string) : string := of_chars (map lower_char (chars s)).

Fixpoint lstrip_chars (l : list ascii) : list ascii :=
  match l with
  | c :: l' => if isspace c then lstrip_chars l' else l
  | [] => []
  end.

(** [s.strip()] *)
Definition strip (s : string) : string :=
  of_chars (rev (lstrip_chars (rev (lstrip_chars (chars s))))).

(** [s.split()]: the maximal runs of non-whitespace characters. [cur]
    holds the current run, last character first. *)
Fixpoint split_chars (cur : list ascii) (l : list ascii) : list string :=
  match l with
  | [] => match cur with [] => [] | _ => [of_chars (rev cur)] end
  | c :: l' =>
      if isspace c then
        match cur with
        | [] => split_chars [] l'
        | _ => of_chars (rev cur) :: split_chars [] l'
        end
      else split_chars (c :: cur) l'
  end.

Definition split (s : string) : list string := split_chars [] (chars s).

Fixpoint starts_with (pre l : list ascii) : bool :=
  match pre, l with
  | [], _ => true
  | p :: pre', c :: l' => Ascii.eqb p c && starts_with pre' l'
  | _ :: _, [] => false
  end.

(** [s.startswith((pre1, pre2, ...))] *)
Definition startswith (s : string) (prefixes : list string) : bool :=
  existsb (fun pre => starts_with (chars pre) (chars s)) prefixes.

(** [s.endswith((suf1, suf2, ...))] *)
Definition endswith (s : string) (suffixes : list string) : bool :=
  existsb (fun suf => starts_with (rev (chars suf)) (rev (chars s))) suffixes.

(** [s.count(sub)] for a non-empty [sub]: occurrences that do not overlap,
    found left to right.  [skip] characters are still covered by the
    occurrence found last. *)
Fixpoint count_chars (sub : list ascii) (skip : nat) (l : list ascii) : Z :=
  match l with
  | [] => 0
  | _ :: l' =>
      match skip with
      | S k => count_chars sub k l'
      | O =>
          if starts_with sub l
          then 1 + count_chars sub (length sub - 1) l'
          else count_chars sub 0 l'
      end
  end.

Definition count (s sub : string) : Z := count_chars (chars sub) 0 (chars s).

(** [sub in s] for a non-empty [sub]. *)
Definition contains (s sub : string) : bool := (0 <? count s sub)%Z.

(** The longest prefix whose characters satisfy [p], and the rest. *)
Fixpoint span (p : ascii → bool) (l : list ascii) : list ascii * list ascii :=
  match l with
  | [] => ([], [])
  | c :: l' =>
      if p c then let '(a, b) := span p l' in (c :: a, b) else ([], l)
  end.

End Str.

(** ** The regular expression [_RE_REPEAT]

    [\b(\w+)\b(?:\s+\1\b){2,}] with [re.IGNORECASE].  Between two word
    boundaries [(\w+)] can only be a whole maximal run of word characters;
    [\s+] followed by the back-reference can only be a whole maximal run of
    whitespace, since no whitespace character is a word character; and
    [\1\b] is again a whole run.  So a match is a word followed, twice,
    by whitespace and the same word, letter case ignored. *)

Module ReRepeat.

(** One [\s+\1\b] after position [r]; the remaining input if it matches. *)
Definition repetition (w r : list ascii) : option (list ascii) :=
  let '(sp, r1) := Str.span Str.isspace r in
  let '(w', r2) := Str.span Str.isword r1 in
  if negb (Nat.eqb (length sp) 0)
     && bool_decide (map Str.lower_char w' = map Str.lower_char w)
  then Some r2 else None.

(** A match that starts at the head of [l], which starts a word. *)
Definition match_here (l : list ascii) : bool :=
  let '(w, r) := Str.span Str.isword l in
  match repetition w r with
  | Some r1 =>
      match repetition w r1 with Some _ => true | None => false end
  | None => false
  end.

(** Try every start position, left to right; [prev_word] tells whether
    the character before the head is a word character. *)
Fixpoint search_from (prev_word : bool) (l : list ascii) : bool :=
  match l with
  | [] => false
  | c :: l' =>
      (negb prev_word && Str.isword c && match_here l)
      || search_from (Str.isword c) l'
  end.

(** [bool(_RE_REPEAT.search(s))] *)
Definition search (s : string) : bool := search_from false (Str.chars s).

End ReRepeat.

(** ** [json.dumps] of the trace record *)

Module Json.

Definition dumps_int (z : Z) : string := NilZero.string_of_int (Z.to_int z).

Definition digit_char (d : Z) : ascii := ascii_of_N (48 + Z.to_N d).

(** Decimal digits of [r / d] after the point, for [0 <= r < d]: at least
    one, and no more than [S fuel]. *)
Fixpoint frac_digits (fuel : nat) (r d : Z) : string :=
  let r10 := 10 * r in
  String (digit_char (r10 / d))
    match fuel with
    | O => EmptyString
    | S f =>
        if (r10 mod d =? 0)%Z then EmptyString
        else frac_digits f (r10 mod d) d
    end.

(** [float.__repr__], which [json.dumps] uses for a float: Python prints
    the shortest decimal that reads back as the same double, never more
    than 17 significant digits.  For a rational this is its decimal
    expansion, cut after 17 fractional digits; the exponent form Python
    switches to below 1e-4 and from 1e16 on is not modelled. *)
Definition dumps_float (x : Q) : string :=
  let n := Qnum x in
  let d := Z.pos (Qden x) in
  let a := Z.abs n in
  (if (n <? 0)%Z then "-" else "")
  +:+ dumps_int (a / d) +:+ "." +:+ frac_digits 16 (a mod d) d.

Fixpoint join (sep : string) (l : list string) : string :=
  match l with
  | [] => ""
  | [x] => x
  | x :: l' => x +:+ sep +:+ join sep l'
  end.

Definition dumps_float_list (l : list Q) : string :=
  "[" +:+ join ", " (map dumps_float l) +:+ "]".

(** A key made of plain ASCII letters, between double quotes. *)
Definition dumps_key (k : string) : string :=
  String "034"%char k +:+ String "034"%char EmptyString.

(** [json.dumps({K: K_hist, R: R_hist, t: turn_index}, sort_keys=True)]:
    keys in sorted order, [", "] between items, [": "] after a key. *)
Definition dumps_trace (K R : list Q) (t : Z) : string :=
  "{" +:+ dumps_key "K" +:+ ": " +:+ dumps_float_list K +:+ ", "
  +:+ dumps_key "R" +:+ ": " +:+ dumps_float_list R +:+ ", "
  +:+ dumps_key "t" +:+ ": " +:+ dumps_int t +:+ "}".

(** [s.encode()]: UTF-8. *)
Definition encode (s : string) : list Z :=
  flat_map (fun c =>
    let n := Z.of_N (Str.code c) in
    if (n <? 128)%Z then [n]
    else [Z.lor 192 (Z.shiftr n 6); Z.lor 128 (Z.land n 63)])
    (Str.chars s).

End Json.

(** ** [hashlib.sha256] (FIPS 180-4) on 32-bit words held in [Z] *)

Module SHA256.

Definition mask32 : Z := 0xFFFFFFFF.
Definition add32 (x y : Z) : Z := Z.land (x + y) mask32.
Definition rotr (n x : Z) : Z :=
  Z.lor (Z.shiftr x n) (Z.land (Z.shiftl x (32 - n)) mask32).
Definition not32 (x : Z) : Z := Z.lxor x mask32.
Definition xor3 (x y z : Z) : Z := Z.lxor (Z.lxor x y) z.

Definition Ch (x y z : Z) : Z := Z.lxor (Z.land x y) (Z.land (not32 x) z).
Definition Maj (x y z : Z) : Z :=
  xor3 (Z.land x y) (Z.land x z) (Z.land y z).
Definition Sigma0 (x : Z) : Z := xor3 (rotr 2 x) (rotr 13 x) (rotr 22 x).
Definition Sigma1 (x : Z) : Z := xor3 (rotr 6 x) (rotr 11 x) (rotr 25 x).
Definition sigma0 (x : Z) : Z := xor3 (rotr 7 x) (rotr 18 x) (Z.shiftr x 3).
Definition sigma1 (x : Z) : Z := xor3 (rotr 17 x) (rotr 19 x) (Z.shiftr x 10).

(** The constants are defined the way the standard defines them: the
    first 32 bits of the fractional parts of the cube roots (round
    constants) and square roots (initial hash value) of the first primes. *)

Definition is_prime (n : Z) : bool :=
  (1 <? n)%Z
  && forallb (fun d => (n <? d * d)%Z || negb (n mod d =? 0)%Z)
       (map Z.of_nat (seq 2 (Z.to_nat n - 2))).

Definition first_primes (count : nat) : list Z :=
  take count (filter (fun n => is_prime n = true) (map Z.of_nat (seq 2 400))).

(** The greatest [r' >= r] with [r' ^ k <= n], among those that add to
    [r] only bits below [bits]. *)
Fixpoint root_bits (k n : Z) (bits : nat) (r : Z) : Z :=
  match bits with
  | O => r
  | S b =>
      let r' := r + 2 ^ Z.of_nat b in
      root_bits k n b (if (r' ^ k <=? n)%Z then r' else r)
  end.

(** The first 32 bits of the fractional part of the [k]-th root of [p]. *)
Definition root_fraction (k p : Z) : Z :=
  root_bits k (p * 2 ^ (32 * k)) 40 0 mod 2 ^ 32.

Definition K256 : list Z := map (root_fraction 3) (first_primes 64).

Definition H_init : list Z := map (root_fraction 2) (first_primes 8).

(** The [n] low bytes of [x], most significant first. *)
Fixpoint be_bytes (n : nat) (x : Z) : list Z :=
  match n with
  | O => []
  | S k => Z.land (Z.shiftr x (8 * Z.of_nat k)) 255 :: be_bytes k x
  end.

Definition pad (msg : list Z) : list Z :=
  let len := Z.of_nat (length msg) in
  msg ++ [128] ++ repeat 0 (Z.to_nat ((55 - len) mod 64))
      ++ be_bytes 8 (8 * len).

Fixpoint words (bs : list Z) : list Z :=
  match bs with
  | b0 :: b1 :: b2 :: b3 :: r =>
      Z.lor (Z.lor (Z.shiftl b0 24) (Z.shiftl b1 16)) (Z.lor (Z.shiftl b2 8) b3)
      :: words r
  | _ => []
  end.

Fixpoint blocks (fuel : nat) (ws : list Z) : list (list Z) :=
  match fuel, ws with
  | S f, _ :: _ => take 16 ws :: blocks f (drop 16 ws)
  | _, _ => []
  end.

Definition word_at (W : list Z) (i : nat) : Z := nth i W 0.

(** The message schedule: 16 block words extended to 64. *)
Definition schedule (block : list Z) : list Z :=
  Nat.iter 48 (fun W =>
    let t := length W in
    W ++ [ add32 (add32 (sigma1 (word_at W (t - 2))) (word_at W (t - 7)))
                 (add32 (sigma0 (word_at W (t - 15))) (word_at W (t - 16))) ])
    block.

Definition round (st : list Z) (kw : Z * Z) : list Z :=
  match st with
  | [a; b; c; d; e; f; g; h] =>
      let t1 := add32 (add32 (add32 h (Sigma1 e)) (add32 (Ch e f g) (fst kw)))
                      (snd kw) in
      let t2 := add32 (Sigma0 a) (Maj a b c) in
      [add32 t1 t2; a; b; c; add32 d t1; e; f; g]
  | _ => st
  end.

Definition compress (H : list Z) (block : list Z) : list Z :=
  zip_with add32 H (fold_left round (zip K256 (schedule block)) H).

Definition digest_words (msg : list Z) : list Z :=
  let ws := words (pad msg) in
  fold_left compress (blocks (length ws) ws) H_init.

Definition hex_char (d : Z) : ascii :=
  ascii_of_N (Z.to_N (if (d <? 10)%Z then 48 + d else 87 + d)).

(** Eight lower-case hexadecimal digits of a 32-bit word. *)
Definition hex_word (w : Z) : list ascii :=
  map (fun i => hex_char (Z.land (Z.shiftr w (4 * Z.of_nat i)) 15))
      [7; 6; 5; 4; 3; 2; 1; 0]%nat.

(** [hashlib.sha256(msg).hexdigest()] *)
Definition hexdigest (msg : list Z) : string :=
  Str.of_chars (flat_map hex_word (digest_words msg)).

End SHA256.

(** ** actuation_threshold.py *)

Module ActuationThreshold.

Definition DEFAULT_CONFIDENCE_THRESHOLD : Q := 0.75%Q.

(** The returned dict always has exactly the keys ["decision"] and
    ["reason"]. *)
Record decision_record : Type := mk_decision
  { decision : string; reason : string }.

Definition may_act (confidence : Q) (invariant_status : gmap string pyval)
  (policy_snapshot : option (gmap string pyval)) (threshold : Q)
  : decision_record :=
  (* Invariants are absolute *)
  if negb (Py.eq_str (Py.get invariant_status "status") "CLEAN") then
    mk_decision "DENY" "invariants not clean"
  (* Confidence gate *)
  else if Float.ltb confidence threshold then
    mk_decision "DENY" "confidence below threshold"
  (* Policy gate (if present) *)
  else if match policy_snapshot with
          | Some p =>
              Py.truthy (PyDict p)
              && negb (Py.truthy (Py.get_or p "allow_action" (PyBool true)))
          | None => false
          end
  then mk_decision "DENY" "policy prohibits action"
  else mk_decision "ALLOW" "all thresholds satisfied".

End ActuationThreshold.

(** ** confidence.py *)

Module Confidence.

(** [needle in container] for a string [needle]; [None] where Python
    raises [TypeError]. *)
Definition contains_str (container : pyval) (needle : string) : option bool :=
  match container with
  | PyList l => Some (existsb (fun v => Py.eq_str v needle) l)
  | PyStr s => Some (Str.contains s needle)
  | PyDict d => Some (bool_decide (is_Some (d !! needle)))
  | _ => None
  end.

Definition truthy_dict (d : option (gmap string pyval)) : bool :=
  match d with
  | Some m => Py.truthy (PyDict m)
  | None => false
  end.

Definition compute_confidence
  (gate_snapshot invariant_status : option (gmap string pyval)) : option Q :=
  (* Defaults: neutral, safe *)
  let entropy_default := PyFloat 0.0 in
  let stabilized_default := Some false in
  let invariant_clean_default := true in
  let entropy :=
    match gate_snapshot with
    | Some g =>
        if truthy_dict gate_snapshot
        then Py.get_or g "mean_entropy" (PyFloat 0.0)
        else entropy_default
    | None => entropy_default
    end in
  let stabilized :=
    match gate_snapshot with
    | Some g =>
        if truthy_dict gate_snapshot
        then contains_str (Py.get_or g "active_constraints" (PyList []))
               "stabilize"
        else stabilized_default
    | None => stabilized_default
    end in
  let invariant_clean :=
    match invariant_status with
    | Some i =>
        if truthy_dict invariant_status
        then Py.eq_str (Py.get_or i "status" (PyStr "CLEAN")) "CLEAN"
        else invariant_clean_default
    | None => invariant_clean_default
    end in
  match stabilized, Py.as_number entropy with
  | Some stabilized, Some entropy =>
      (* Start from full confidence *)
      let confidence := 1.0%Q in
      (* Entropy penalty (soft) *)
      let confidence := (confidence - Float.py_min entropy 1.0 * 0.4)%Q in
      (* Stabilization penalty *)
      let confidence :=
        if stabilized then (confidence - 0.2)%Q else confidence in
      (* Invariant violation is hard stop *)
      let confidence := if negb invariant_clean then 0.0%Q else confidence in
      Some (Float.py_round
              (Float.py_max 0.0 (Float.py_min confidence 1.0)) 3)
  | _, _ => None
  end.

End Confidence.

(** ** intelligence_gate.py *)

Module IntelligenceGate.

(** [ENTROPY_MAX] is read from the environment when the module is loaded;
    this is its value when the variable is not set.  [process] takes the
    value in force as its first argument. *)
Definition ENTROPY_MAX_default : Q := 0.30%Q.
Definition WINDOW_SIZE : nat := 10.

Record gate : Type := mk_gate
  { entropy_window : list Q;
    active_constraints : gset string;
    identity_pressure : Q }.

(** [IntelligenceGate()] *)
Definition init : gate := mk_gate [] ∅ 0.0%Q.

(** [deque(maxlen=n).append(x)]: a full deque drops its oldest item. *)
Definition deque_append (maxlen : nat) (w : list Q) (x : Q) : list Q :=
  if (maxlen =? 0)%nat then w
  else if (length w <? maxlen)%nat then w ++ [x]
  else drop 1 w ++ [x].

Definition extract_signal (text : string) : string := Str.strip text.

Definition measure_entropy (text : string) : Q :=
  if (String.length text =? 0)%nat then 0.0%Q
  else
    let unique_chars := size (list_to_set (Str.chars text) : gset ascii) in
    Qmake (Z.of_nat unique_chars) (Pos.of_nat (String.length text)).

Definition mean (w : list Q) : Q :=
  if (length w =? 0)%nat then 0.0%Q
  else Float.div_len (Float.py_sum w) (length w).

(** [process] returns the gate after the call and the pair
    [(snapshot, dampening)]. *)
Definition process (ENTROPY_MAX : Q) (self : gate) (text : string)
  : gate * (gmap string pyval * Q) :=
  let signal := extract_signal text in
  let entropy := measure_entropy signal in
  let window := deque_append WINDOW_SIZE (entropy_window self) entropy in
  let mean_entropy := mean window in
  let constraints : gset string :=
    if Float.ltb ENTROPY_MAX mean_entropy then {[ "stabilize" ]} else ∅ in
  let snapshot : gmap string pyval :=
    <[ "entropy" := PyFloat (Float.py_round entropy 4) ]>
    (<[ "mean_entropy" := PyFloat (Float.py_round mean_entropy 4) ]>
    (<[ "active_constraints" := PyList (PyStr <$> elements constraints) ]>
    (<[ "identity_pressure" :=
          PyFloat (Float.py_round (identity_pressure self) 4) ]> ∅))) in
  let dampening :=
    if bool_decide ("stabilize" ∈ constraints) then 0.7%Q else 1.0%Q in
  (mk_gate window constraints (identity_pressure self), (snapshot, dampening)).

(** The gate after a sequence of calls, first to last, and what the last
    call returned ([None] for no call). *)
Definition process_all (ENTROPY_MAX : Q) (self : gate) (texts : list string)
  : gate * option (gmap string pyval * Q) :=
  fold_left (fun st text =>
               let '(g, r) := process ENTROPY_MAX (fst st) text in
               (g, Some r))
            texts (self, None).

End IntelligenceGate.

(** ** instrumentation.py *)

Module Instrumentation.

(** A line of the log file: the JSON value it parses to, or [None] for a
    line that [json.loads] rejects. *)
Definition log_line : Type := option pyval.

(** [record(snapshot, dampening)] appends one entry; [ts] is the clock
    reading. *)
Definition record (ts : string) (snapshot : gmap string pyval) (dampening : Q)
  (log : list log_line) : list log_line :=
  let entry : gmap string pyval :=
    <[ "ts" := PyStr ts ]>
    (<[ "entropy" := Py.get snapshot "entropy" ]>
    (<[ "mean_entropy" := Py.get snapshot "mean_entropy" ]>
    (<[ "active_constraints" :=
          Py.get_or snapshot "active_constraints" (PyList []) ]>
    (<[ "identity_pressure" := Py.get snapshot "identity_pressure" ]>
    (<[ "dampening" := PyFloat dampening ]> ∅))))) in
  log ++ [Some (PyDict entry)].

End Instrumentation.

(** ** invariants.py *)

Module Invariants.

(** [e[key]]: only a dict can be indexed by a string, and the key must be
    there. *)
Definition subscript (e : pyval) (key : string) : option pyval :=
  match e with
  | PyDict d => d !! key
  | _ => None
  end.

(** [lo <= v <= hi] and [lo < v <= hi] for float literals [lo], [hi]. *)
Definition between_incl (lo hi : Q) (v : pyval) : option bool :=
  x ← Py.as_number v; Some (Float.leb lo x && Float.leb x hi).
Definition between_excl_incl (lo hi : Q) (v : pyval) : option bool :=
  x ← Py.as_number v; Some (Float.ltb lo x && Float.leb x hi).

(** [isinstance(e.get(key), list)]: only a dict has [get]. *)
Definition get_is_list (e : pyval) (key : string) : option bool :=
  match e with
  | PyDict d =>
      Some match Py.get d key with PyList _ => true | _ => false end
  | _ => None
  end.

(** The rules, in the order the dict literal lists them; a rule yields
    [None] when evaluating it raises. *)
Definition INVARIANTS : list (string * (pyval → option bool)) :=
  [ ("entropy_bound",
      fun e => subscript e "entropy" ≫= between_incl 0.0 1.0);
    ("mean_entropy_bound",
      fun e => subscript e "mean_entropy" ≫= between_incl 0.0 1.0);
    ("dampening_range",
      fun e => subscript e "dampening" ≫= between_excl_incl 0.0 1.0);
    ("no_identity_write",
      fun e => Confidence.contains_str e "identity_pressure");
    ("constraints_explicit",
      fun e => get_is_list e "active_constraints") ].

(** [load_events()]: no file gives no events; lines that do not parse are
    skipped. *)
Definition load_events (log : option (list Instrumentation.log_line))
  : list pyval :=
  match log with
  | None => []
  | Some lines => omap id lines
  end.

(** What [verify] prints and returns. *)
Inductive outcome : Type :=
| Unverifiable
| ViolationsDetected (failures : list (nat * string * pyval))
| Clean (events_checked invariants : nat).

Definition exit_code (o : outcome) : Z :=
  match o with
  | Unverifiable => 1
  | ViolationsDetected _ => 2
  | Clean _ _ => 0
  end.

(** The inner loop for event [e] at index [i]. *)
Definition check_event (i : nat) (e : pyval) : list (nat * string * pyval) :=
  flat_map (fun '(name, rule) =>
    match rule e with
    | Some true => []
    | Some false => [(i, name, e)]
    | None => [(i, name, PyStr "exception")]
    end) INVARIANTS.

Definition verify (log : option (list Instrumentation.log_line)) : outcome :=
  let events := load_events log in
  if (length events =? 0)%nat then Unverifiable
  else
    let failures := flat_map (fun '(i, e) => check_event i e)
                             (zip (seq 0 (length events)) events) in
    if negb (length failures =? 0)%nat then ViolationsDetected failures
    else Clean (length events) (length INVARIANTS).

End Invariants.

(** ** intelligence_layer.py *)

Module IntelligenceLayer.

Record ILState : Type := mk_ILState
  { K_t : Q;
    R_t : Q;
    K_hist : list Q;
    R_hist : list Q;
    Kt_slope_2 : Q;
    turn_index : Z;
    cooldown_active : bool;
    cooldown_turns_left : Z;
    cooldown_exit_K : Q;
    cooldown_min_turns : Z;
    last_segment_turn : Z;
    invariants : gmap string pyval;
    trace_hash : string }.

(** [ILState()] *)
Definition ILState_default : ILState :=
  {| K_t := 1.0; R_t := 0.0; K_hist := []; R_hist := [];
     Kt_slope_2 := 0.0; turn_index := 0;
     cooldown_active := false; cooldown_turns_left := 0;
     cooldown_exit_K := 0.90; cooldown_min_turns := 2;
     last_segment_turn := -10;
     invariants := ∅; trace_hash := "" |}.

Definition clamp01 (x : Q) : Q := Float.py_max 0.0 (Float.py_min 1.0 x).

Definition estimate_recursion (text : string) : Q :=
  let t := Str.lower text in
  let repeats := if ReRepeat.search t then 1.0%Q else 0.0%Q in
  let self_ref :=
    fold_left Z.add (map (Str.count t) ["again"; "repeat"; "as i said"]) 0 in
  clamp01 (0.6 * repeats + 0.1 * inject_Z self_ref)%Q.

(** The function attribute [estimate_coherence._last_tokens] is the first
    argument and the second component of the result; an attribute that
    was never set reads as the empty set. *)
Definition estimate_coherence (last_tokens : gset string) (text : string)
  : Q * gset string :=
  if negb (Py.truthy (PyStr (Str.strip text))) then (0.0%Q, last_tokens)
  else
    let closure :=
      if Str.endswith (Str.strip text) ["."; "!"; "?"]
      then 1.0%Q else 0.5%Q in
    let length_factor :=
      clamp01 (inject_Z (Z.of_nat (String.length text) - 80) / 400.0)%Q in
    let tokens : gset string := list_to_set (Str.split (Str.lower text)) in
    let overlap := size (tokens ∩ last_tokens) in
    let soft_penalty :=
      (clamp01 (inject_Z (Z.of_nat overlap) / 20.0) * 0.15)%Q in
    let hard_penalty :=
      if ReRepeat.search (Str.lower text) then 0.2%Q else 0.0%Q in
    let repeat_penalty := (soft_penalty + hard_penalty)%Q in
    (clamp01 (0.6 * closure + 0.4 * length_factor - repeat_penalty)%Q,
     tokens).

(** [l[-n:]] for [n > 0] *)
Definition last_n {A} (n : nat) (l : list A) : list A :=
  drop (length l - n) l.

(** [(K_hist[-1] - K_hist[-3]) / 2.0] when [len(K_hist) >= 3], else 0.0 *)
Definition slope_2 (K_hist : list Q) : Q :=
  match rev K_hist with
  | k1 :: _ :: k3 :: _ => ((k1 - k3) / 2.0)%Q
  | _ => 0.0%Q
  end.

(** [sha256(json.dumps(...).encode()).hexdigest()[:16]] *)
Definition trace_digest (K_hist R_hist : list Q) (turn_index : Z) : string :=
  substring 0 16
    (SHA256.hexdigest (Json.encode (Json.dumps_trace K_hist R_hist turn_index))).

(** The dict [update_state] returns. *)
Record metrics : Type := mk_metrics
  { m_turn : Z; m_K_t : Q; m_R_t : Q; m_Kt_slope_2 : Q;
    m_cooldown : bool; m_trace_hash : string }.

Definition update_state (last_tokens : gset string) (state : ILState)
  (text : string) : gset string * ILState * metrics :=
  let '(K, last_tokens) := estimate_coherence last_tokens text in
  let R := estimate_recursion text in
  let turn_index' := turn_index state + 1 in
  let K_hist' := last_n 6 (K_hist state ++ [K]) in
  let R_hist' := last_n 6 (R_hist state ++ [R]) in
  let Kt_slope_2' := slope_2 K_hist' in
  let trace_hash' := trace_digest K_hist' R_hist' turn_index' in
  let cooldown_turns_left' :=
    if cooldown_active state then cooldown_turns_left state - 1
    else cooldown_turns_left state in
  let cooldown_active' :=
    if cooldown_active state then
      let served :=
        cooldown_min_turns state <=? turn_index' - last_segment_turn state in
      if served && (cooldown_turns_left' <=? 0)
         && Float.leb (cooldown_exit_K state) K
      then false else true
    else false in
  let state' :=
    {| K_t := K; R_t := R; K_hist := K_hist'; R_hist := R_hist';
       Kt_slope_2 := Kt_slope_2'; turn_index := turn_index';
       cooldown_active := cooldown_active';
       cooldown_turns_left := cooldown_turns_left';
       cooldown_exit_K := cooldown_exit_K state;
       cooldown_min_turns := cooldown_min_turns state;
       last_segment_turn := last_segment_turn state;
       invariants := invariants state;
       trace_hash := trace_hash' |} in
  (last_tokens, state',
   mk_metrics turn_index' K R Kt_slope_2' cooldown_active' trace_hash').

Definition acceleration_trigger (state : ILState) : bool :=
  Float.ltb (Kt_slope_2 state) (-0.15) && Float.ltb 0.80 (R_t state).

Definition saturation_trigger (state : ILState) : bool :=
  Float.ltb 0.80 (R_t state)
  && Float.ltb (K_t state) 0.45
  && (3 <=? length (K_hist state))%nat
  && forallb (fun k => Float.ltb k 0.45) (last_n 3 (K_hist state)).

Definition should_segment (state : ILState) : bool :=
  let trigger := acceleration_trigger state || saturation_trigger state in
  (* Cooldown remains stricter *)
  if cooldown_active state
  then trigger && Float.ltb (Kt_slope_2 state) (-0.30)
  else trigger.

Definition extract_invariants (buffer : list string) : gmap string pyval :=
  let keep :=
    omap (fun line =>
            if Str.startswith (Str.strip line) ["-"; "#"]
            then Some (PyStr (Str.strip line)) else None)
         (last_n 8 buffer) in
  {[ "constraints" := PyList (take 10 keep) ]}.

(** The dict [segment_now] returns. *)
Record seed_pack : Type := mk_seed_pack
  { sp_reason : string; sp_turn : Z; sp_K_t : Q; sp_R_t : Q;
    sp_Kt_slope_2 : Q; sp_invariants : gmap string pyval;
    sp_trace_hash : string }.

Definition segment_now (state : ILState) (buffer : list string)
  : ILState * seed_pack :=
  let state' :=
    {| K_t := K_t state; R_t := R_t state;
       K_hist := K_hist state; R_hist := R_hist state;
       Kt_slope_2 := Kt_slope_2 state; turn_index := turn_index state;
       cooldown_active := true;
       cooldown_turns_left := 2;
       cooldown_exit_K := cooldown_exit_K state;
       cooldown_min_turns := cooldown_min_turns state;
       last_segment_turn := turn_index state;
       invariants := extract_invariants buffer;
       trace_hash := trace_hash state |} in
  (state',
   mk_seed_pack "LAST_RECOVERABLE_MOMENT" (turn_index state') (K_t state')
     (R_t state') (Kt_slope_2 state') (invariants state') (trace_hash state')).

End IntelligenceLayer.

(** ** Vocabulary of the specification *)

Module Spec.

(** The policy gate denies: a snapshot is given, is not empty, and its
    [allow_action] entry (absent: [True]) is falsy. *)
Definition policy_prohibits (policy : option (gmap string pyval)) : Prop :=
  ∃ p, policy = Some p ∧ p ≠ ∅
       ∧ Py.truthy (default (PyBool true) (p !! "allow_action")) = false.

(** [clamp01] as the specification reads it: the nearest point of [0,1]. *)
Definition clamp01 (x : Q) : Q := Qmax 0 (Qmin 1 x).

(** The confidence formula of the specification, section 4.5, as a
    function of the three quantities it names. *)
Definition confidence (entropy : Q) (stabilized invariant_clean : bool) : Q :=
  if invariant_clean
  then Float.py_round
         (clamp01 (1.0 - Qmin entropy 1.0 * 0.4
                   - (if stabilized then 0.2 else 0))) 3
  else 0.0%Q.

(** The three inputs of the formula as [compute_confidence] finds them:
    a numeric entry [key] of the snapshot (absent entry or absent or empty
    snapshot: 0), whether ["stabilize"] is listed in [active_constraints],
    and whether the status is CLEAN (absent: clean). *)
Definition snapshot_entry_is (key : string) (g : option (gmap string pyval))
  (e : Q) : Prop :=
  match g with
  | Some m => match m !! key with
              | Some v => Py.as_number v = Some e
              | None => e = 0.0%Q
              end
  | None => e = 0.0%Q
  end.

Definition snapshot_stabilized (g : option (gmap string pyval)) : Prop :=
  ∃ m l, g = Some m ∧ m !! "active_constraints" = Some (PyList l)
         ∧ In (PyStr "stabilize") l.

Definition status_clean (i : option (gmap string pyval)) : Prop :=
  ∀ m v, i = Some m → m !! "status" = Some v → v = PyStr "CLEAN".

(** A snapshot as the data model has it: [mean_entropy] is a number and
    [active_constraints] a list, where present. *)
Definition well_formed_snapshot (g : option (gmap string pyval)) : Prop :=
  ∀ m, g = Some m →
    (∀ v, m !! "mean_entropy" = Some v → is_Some (Py.as_number v))
    ∧ (∀ v, m !! "active_constraints" = Some v → ∃ l, v = PyList l).

(** The entropy sample a call to [process] computes from its text. *)
Definition sample (text : string) : Q :=
  IntelligenceGate.measure_entropy (IntelligenceGate.extract_signal text).

(** A log record passes the entropy bound named [key]: the entry is a
    number in [0, 1]. *)
Definition entry_in_unit_interval (d : gmap string pyval) (key : string)
  : Prop :=
  ∃ v x, d !! key = Some v ∧ Py.as_number v = Some x ∧ (0 <= x <= 1)%Q.

(** A log record passes the four predicates other than the dampening
    range. *)
Definition passes_other_predicates (d : gmap string pyval) : Prop :=
  entry_in_unit_interval d "entropy"
  ∧ entry_in_unit_interval d "mean_entropy"
  ∧ is_Some (d !! "identity_pressure")
  ∧ ∃ l, d !! "active_constraints" = Some (PyList l).

(** The violation list of an outcome. *)
Definition violations (o : Invariants.outcome) : list (nat * string * pyval) :=
  match o with
  | Invariants.ViolationsDetected l => l
  | _ => []
  end.

(** A text that is empty or made of whitespace only. *)
Definition blank (text : string) : Prop :=
  Forall (fun c => Str.isspace c = true) (Str.chars text).

(** The two triggers of section 4.4. *)
Definition acceleration (s : IntelligenceLayer.ILState) : Prop :=
  (IntelligenceLayer.Kt_slope_2 s < -0.15)%Q
  ∧ (0.80 < IntelligenceLayer.R_t s)%Q.

Definition saturation (s : IntelligenceLayer.ILState) : Prop :=
  let K_hist := IntelligenceLayer.K_hist s in
  (0.80 < IntelligenceLayer.R_t s)%Q
  ∧ (IntelligenceLayer.K_t s < 0.45)%Q
  ∧ (3 ≤ length K_hist)%nat
  ∧ Forall (fun k => (k < 0.45)%Q) (drop (length K_hist - 3) K_hist).

(** The session state of the examples of section 8: the given history,
    current values, slope and cooldown flag, every other field as a fresh
    state has it. *)
Definition example_state (K_hist : list Q) (K_t R_t Kt_slope_2 : Q)
  (cooldown_active : bool) : IntelligenceLayer.ILState :=
  {| IntelligenceLayer.K_t := K_t;
     IntelligenceLayer.R_t := R_t;
     IntelligenceLayer.K_hist := K_hist;
     IntelligenceLayer.R_hist := [];
     IntelligenceLayer.Kt_slope_2 := Kt_slope_2;
     IntelligenceLayer.turn_index := 0;
     IntelligenceLayer.cooldown_active := cooldown_active;
     IntelligenceLayer.cooldown_turns_left := 0;
     IntelligenceLayer.cooldown_exit_K := 0.90;
     IntelligenceLayer.cooldown_min_turns := 2;
     IntelligenceLayer.last_segment_turn := -10;
     IntelligenceLayer.invariants := ∅;
     IntelligenceLayer.trace_hash := "" |}.

(** A fresh session state whose turn counter stands at [t]. *)
Definition state_at_turn (t : Z) : IntelligenceLayer.ILState :=
  {| IntelligenceLayer.K_t := 1.0;
     IntelligenceLayer.R_t := 0.0;
     IntelligenceLayer.K_hist := [];
     IntelligenceLayer.R_hist := [];
     IntelligenceLayer.Kt_slope_2 := 0.0;
     IntelligenceLayer.turn_index := t;
     IntelligenceLayer.cooldown_active := false;
     IntelligenceLayer.cooldown_turns_left := 0;
     IntelligenceLayer.cooldown_exit_K := 0.90;
     IntelligenceLayer.cooldown_min_turns := 2;
     IntelligenceLayer.last_segment_turn := -10;
     IntelligenceLayer.invariants := ∅;
     IntelligenceLayer.trace_hash := "" |}.

(** The session state an [update_state] call leaves behind. *)
Definition updated (last_tokens : gset string)
  (s : IntelligenceLayer.ILState) (text : string)
  : IntelligenceLayer.ILState :=
  snd (fst (IntelligenceLayer.update_state last_tokens s text)).


End Spec.

(** ** Python sequence slices *)

Module PySeq.

(** [l[-n:]] for an int [n]: the last [n] items when [n > 0], the whole
    list when [n = 0], and [l[k:]] when [n = -k < 0]. *)
Definition from_minus {A} (n : Z) (l : list A) : list A :=
  if (0 <? n)%Z then drop (length l - Z.to_nat n) l
  else drop (Z.to_nat (- n)) l.

(** [l[:k]] for [k] an int or [None]: a negative [k] counts from the
    end. *)
Definition up_to {A} (k : option Z) (l : list A) : list A :=
  match k with
  | None => l
  | Some k =>
      if (k <? 0)%Z then take (length l - Z.to_nat (- k)) l
      else take (Z.to_nat k) l
  end.

End PySeq.

(** ** execution_binding.py *)

Module ExecutionBinding.

Definition may_execute (capabilities : list string) (mode : string)
  (operator_ok : bool) : ActuationThreshold.decision_record :=
  if negb (String.eqb mode "execute") then
    ActuationThreshold.mk_decision "DENY" "execution mode not enabled"
  else if negb operator_ok then
    ActuationThreshold.mk_decision "DENY" "operator approval not present"
  else if Nat.eqb (length capabilities) 0 then
    ActuationThreshold.mk_decision "DENY" "no executable capabilities"
  else
    ActuationThreshold.mk_decision "ALLOW"
      "explicit execution binding satisfied".

End ExecutionBinding.

(** ** intent_bindings.py *)

Module IntentBindings.

(** Static binding table *)
Definition INTENT_BINDINGS : gmap string (list string) :=
  <[ "statement" := [] ]>
  (<[ "explanation" := ["explain"] ]>
  (<[ "question" := ["explain"] ]>
  (<[ "request" := [] ]> ∅))).

(** The returned dict has the keys [allowed] and [reason]. *)
Record binding : Type := mk_binding
  { allowed : list string; reason : string }.

Definition allowed_capabilities (intent : string) (confidence : Q)
  (invariant_status : gmap string pyval) : binding :=
  if negb (Py.eq_str (Py.get invariant_status "status") "CLEAN") then
    mk_binding [] "invariants not clean"
  else if Float.ltb confidence 0.5 then
    mk_binding [] "confidence too low"
  else
    mk_binding (default [] (INTENT_BINDINGS !! intent)) "explicit binding".

End IntentBindings.

(** ** dispatch.py *)

Module Dispatch.

(** The returned dict has the keys [status] and [description]. *)
Record dispatch_record : Type := mk_dispatch
  { status : string; description : string }.

(** The sentence the loop appends for one capability. *)
Definition describe (cap : string) : string :=
  if String.eqb cap "explain" then
    "System would generate an explanation based solely on explicit input."
  else "Capability '" +:+ cap +:+ "' has no defined dispatch behavior.".

Definition dispatch (capabilities : list string) (text : string)
  : dispatch_record :=
  if Nat.eqb (length capabilities) 0 then
    mk_dispatch "noop" "No capabilities permitted for this intent."
  else mk_dispatch "dry-run" (Json.join " " (map describe capabilities)).

End Dispatch.

(** ** execution_stub.py *)

Module ExecutionStub.

Definition execute (capability text : string) : gmap string string :=
  if negb (String.eqb capability "explain") then
    <[ "status" := "DENIED" ]>
    (<[ "reason" := "capability not executable" ]> ∅)
  else if negb (Py.truthy (PyStr (Str.strip text))) then
    <[ "status" := "NOOP" ]> (<[ "reason" := "empty input" ]> ∅)
  else
    (* Minimal, bounded explanation *)
    let explanation :=
      "Elyria is stable because each layer operates under strict constraints, "
      +:+ "with explicit boundaries between understanding, permission, and action."
    in
    <[ "status" := "EXECUTED" ]>
    (<[ "capability" := "explain" ]>
    (<[ "output" := explanation ]> ∅)).

End ExecutionStub.

(** ** capabilities.py *)

Module Capabilities.

Definition classify (text : string) : gmap string string :=
  let text := Str.strip text in
  if negb (Py.truthy (PyStr text)) then {[ "type" := "empty" ]}
  else if Str.endswith text ["?"] then {[ "type" := "question" ]}
  else if Str.startswith (Str.lower text) ["please"; "do "; "can you"]
  then {[ "type" := "request" ]}
  else {[ "type" := "statement" ]}.

Definition extract_intent (text : string) : gmap string string :=
  let text := Str.lower text in
  if Str.contains text "why" then {[ "intent" := "explanation" ]}
  else if Str.contains text "how" then {[ "intent" := "procedure" ]}
  else if Str.contains text "should" || Str.contains text "can i"
  then {[ "intent" := "decision_support" ]}
  else {[ "intent" := "unspecified" ]}.

(** [max_words] is an int, or [None] when a caller passes Python's
    [None] through. *)
Definition summarize (text : string) (max_words : option Z)
  : gmap string string :=
  let words := Str.split text in
  {[ "summary" := Json.join " " (PySeq.up_to max_words words) ]}.

End Capabilities.

(** ** intelligence.py *)

Module Intelligence.

(** [context] is accepted and not read. *)
Definition reason (text : string) (context : option (gmap string pyval))
  : gmap string string :=
  let text := Str.strip text in
  if negb (Py.truthy (PyStr text)) then
    <[ "status" := "no-input" ]>
    (<[ "analysis" := "" ]> (<[ "response" := "" ]> ∅))
  else
    let analysis :=
      "Input received. Analyzing structure and intent "
      +:+ "without assuming context, identity, or history." in
    let response :=
      "Statement acknowledged. No action taken "
      +:+ "without an explicit request." in
    <[ "status" := "ok" ]>
    (<[ "analysis" := analysis ]> (<[ "response" := response ]> ∅)).

(** A slice bound: an int (a bool counts as one) or [None]; [None] of the
    result where Python raises [TypeError]. *)
Definition slice_bound (v : pyval) : option (option Z) :=
  match v with
  | PyNone => Some None
  | PyInt z => Some (Some z)
  | PyBool b => Some (Some (if b then 1 else 0))
  | _ => None
  end.

Definition route (text : string) (context : option (gmap string pyval))
  : option (gmap string string) :=
  let context := default ∅ context in
  type ← Capabilities.classify text !! "type";
  intent ← Capabilities.extract_intent text !! "intent";
  let result : gmap string string :=
    <[ "intent" := intent ]> (<[ "type" := type ]> ∅) in
  if Py.truthy (Py.get context "allow_summary") then
    max_words ← slice_bound (Py.get_or context "summary_words" (PyInt 12));
    summary ← Capabilities.summarize text max_words !! "summary";
    Some (<[ "summary" := summary ]> result)
  else Some result.

End Intelligence.

(** ** policy.py and actuation.py *)

Module Policy.

(** Tunable advisory thresholds (NOT enforced) *)
Definition ENTROPY_TARGET : Q := 0.35%Q.
Definition STABILIZATION_TARGET : Q := 0.60%Q.
Definition DAMPENING_TARGET : Q := 0.80%Q.

(** [sum(e[key] for e in events)]; [None] where an event is not a dict,
    lacks the key, or holds something that cannot be added. *)
Fixpoint sum_field (key : string) (events : list pyval) (acc : Q) : option Q :=
  match events with
  | [] => Some acc
  | e :: rest =>
      v ← Invariants.subscript e key;
      x ← Py.as_number v;
      sum_field key rest (acc + x)%Q
  end.

(** [sum(1 for e in events if "stabilize" in e.get("active_constraints",
    []))] *)
Fixpoint count_stabilized (events : list pyval) (acc : Z) : option Z :=
  match events with
  | [] => Some acc
  | PyDict d :: rest =>
      match Confidence.contains_str
              (Py.get_or d "active_constraints" (PyList [])) "stabilize" with
      | Some b => count_stabilized rest (if b then acc + 1 else acc)
      | None => None
      end
  | _ :: _ => None
  end.

(** [analyze()], on the log file given as for [Invariants.load_events];
    [None] where it raises. *)
Definition analyze (log : option (list Instrumentation.log_line))
  : option (gmap string pyval) :=
  let events := Invariants.load_events log in
  if Nat.eqb (length events) 0 then
    Some (<[ "status" := PyStr "no-data" ]>
          (<[ "recommendations" := PyList [PyStr "collect more observations"] ]>
           ∅))
  else
    let total := length events in
    sum_entropy ← sum_field "entropy" events 0;
    sum_dampening ← sum_field "dampening" events 0;
    stabilized ← count_stabilized events 0;
    let avg_entropy := Float.div_len sum_entropy total in
    let avg_dampening := Float.div_len sum_dampening total in
    let stabilization_rate := Float.div_len (inject_Z stabilized) total in
    let recs :=
      (if Float.ltb ENTROPY_TARGET avg_entropy
       then [PyStr "consider lowering ENTROPY_MAX"] else [])
      ++ (if Float.ltb STABILIZATION_TARGET stabilization_rate
          then [PyStr "system frequently stabilizing; review input patterns"]
          else [])
      ++ (if Float.ltb avg_dampening DAMPENING_TARGET
          then [PyStr "dampening low; entropy may be over-constrained"]
          else []) in
    let recs :=
      if Nat.eqb (length recs) 0
      then [PyStr "system operating within expected bounds"] else recs in
    Some (<[ "observations" := PyInt (Z.of_nat total) ]>
          (<[ "avg_entropy" := PyFloat (Float.py_round avg_entropy 4) ]>
          (<[ "stabilization_rate" :=
                PyFloat (Float.py_round stabilization_rate 3) ]>
          (<[ "avg_dampening" := PyFloat (Float.py_round avg_dampening 3) ]>
          (<[ "recommendations" := PyList recs ]> ∅))))).

(** actuation.py *)
Definition simulate_action (rec : string) : string :=
  if Str.contains rec "lowering ENTROPY_MAX" then
    "SIMULATE: would decrease ENTROPY_MAX by 0.05"
  else if Str.contains rec "review input patterns" then
    "SIMULATE: would flag input sources for review"
  else if Str.contains rec "over-constrained" then
    "SIMULATE: would relax dampening slope slightly"
  else if Str.contains rec "operating within expected bounds" then
    "NO ACTION: system stable"
  else "UNKNOWN RECOMMENDATION".

End Policy.

(** ** observability.py *)

Module Observability.

Definition WINDOW : Z := 20.

(** A line of [LOG.read_text().splitlines()]: the JSON value it parses
    to, or [None] for a line that [json.loads] rejects.  [splitlines] cuts
    at more separators than iterating the file does (form feed, vertical
    tab, the file, group and record separators, NEL, the Unicode line and
    paragraph separators), so this list is in general not the list of
    lines that [Invariants.load_events] reads from the same file. *)
Definition split_line : Type := option pyval.

(** [load_recent(n)]: [None] stands for a file that does not exist,
    [Some lines] for the lines [splitlines] yields; the last of them are
    parsed, and lines that do not parse are skipped. *)
Definition load_recent (n : Z) (file : option (list split_line))
  : list pyval :=
  match file with
  | None => []
  | Some lines =>
      let recent := PySeq.from_minus n lines in
      omap id recent
  end.

End Observability.

(* ================================================================== *)
(** * Part II.  Properties                                              *)
(* ================================================================== *)

(** Goals about closed terms (concrete dicts, numbers, texts) are settled
    by evaluation. *)
Ltac evaluate := vm_compute; first [reflexivity | discriminate].

(** An entry of a concrete dict is a number in the unit interval. *)
Ltac unit_interval_entry :=
  eexists _, _; split; [evaluate |]; split; [reflexivity |]; split; evaluate.

(** ** Facts about the float operations *)

Section FloatFacts.
Import Float.

Lemma ltb_lt (x y : Q) : ltb x y = true ↔ (x < y)%Q.
Proof.
  unfold ltb. rewrite negb_true_iff, <- not_true_iff_false, Qle_bool_iff.
  split; [apply Qnot_le_lt | apply Qlt_not_le].
Qed.

Lemma ltb_ge (x y : Q) : ltb x y = false ↔ (y <= x)%Q.
Proof. unfold ltb. rewrite negb_false_iff. apply Qle_bool_iff. Qed.

Lemma leb_le (x y : Q) : leb x y = true ↔ (x <= y)%Q.
Proof. apply Qle_bool_iff. Qed.

Lemma ltb_reflect (x y : Q) : reflect (x < y)%Q (ltb x y).
Proof.
  destruct (ltb x y) eqn:E; constructor.
  - by apply ltb_lt.
  - apply ltb_ge in E. lra.
Qed.

Lemma py_min_Qmin (a b : Q) : (py_min a b == Qmin a b)%Q.
Proof.
  unfold py_min. destruct (ltb_reflect b a).
  - symmetry. apply Q.min_r. lra.
  - symmetry. apply Q.min_l. lra.
Qed.

Lemma py_max_Qmax (a b : Q) : (py_max a b == Qmax a b)%Q.
Proof.
  unfold py_max. destruct (ltb_reflect a b).
  - symmetry. apply Q.max_r. lra.
  - symmetry. apply Q.max_l. lra.
Qed.

Lemma py_min_le_compat (a a' b : Q) :
  (a <= a')%Q → (py_min a b <= py_min a' b)%Q.
Proof.
  intros H. unfold py_min.
  destruct (ltb_reflect b a), (ltb_reflect b a'); lra.
Qed.

Lemma py_max_le_compat (a b b' : Q) :
  (b <= b')%Q → (py_max a b <= py_max a b')%Q.
Proof.
  intros H. unfold py_max.
  destruct (ltb_reflect a b), (ltb_reflect a b'); lra.
Qed.

(** What [round_half_even] returns: an integer within one half of its
    argument, the even one when two integers are. *)
Lemma round_half_even_bounds (x : Q) :
  let z := round_half_even x in
  (inject_Z (2 * z - 1) <= 2 * x)%Q ∧ (2 * x <= inject_Z (2 * z + 1))%Q
  ∧ ((2 * x == inject_Z (2 * z - 1))%Q → Z.even z = true)
  ∧ ((2 * x == inject_Z (2 * z + 1))%Q → Z.even z = true).
Proof.
  destruct x as [n d]. unfold round_half_even, Qle, Qeq.
  cbn [Qnum Qden Qmult inject_Z].
  pose proof (Z.div_mod n (Z.pos d) ltac:(lia)) as Hdm.
  pose proof (Z.mod_pos_bound n (Z.pos d) ltac:(lia)) as Hb.
  set (q := n / Z.pos d) in *. set (r := n mod Z.pos d) in *.
  rewrite !Pos2Z.inj_mul.
  destruct (Z.compare_spec (2 * r) (Z.pos d)) as [E|L|G];
    [destruct (Z.even q) eqn:Ev | | ];
    repeat split; intros;
    first [ nia | assumption
          | rewrite Z.even_add, Ev; reflexivity
          | exfalso; nia ].
Qed.

Lemma round_half_even_mono (x y : Q) :
  (x <= y)%Q → round_half_even x ≤ round_half_even y.
Proof.
  intros Hxy.
  destruct (round_half_even_bounds x) as (Hx1 & Hx2 & Hx3 & Hx4).
  destruct (round_half_even_bounds y) as (Hy1 & Hy2 & Hy3 & Hy4).
  set (a := round_half_even x) in *. set (b := round_half_even y) in *.
  destruct (Z_le_gt_dec a b) as [|Hgt]; [assumption | exfalso].
  assert (Hab : (inject_Z (2 * b + 1) <= inject_Z (2 * a - 1))%Q)
    by (rewrite <- Zle_Qle; lia).
  assert (E1 : (2 * x == inject_Z (2 * a - 1))%Q) by lra.
  assert (E2 : (2 * y == inject_Z (2 * b + 1))%Q) by lra.
  assert (E3 : (inject_Z (2 * b + 1) == inject_Z (2 * a - 1))%Q) by lra.
  apply (proj1 (inject_Z_injective _ _)) in E3.
  specialize (Hx3 E1). specialize (Hy4 E2).
  assert (a = b + 1) as -> by lia.
  rewrite Z.even_add in Hx3. rewrite Hy4 in Hx3. discriminate.
Qed.

Lemma round_half_even_compat (x y : Q) :
  (x == y)%Q → round_half_even x = round_half_even y.
Proof.
  intros H. apply Z.le_antisymm; apply round_half_even_mono; lra.
Qed.

Lemma scale_pos (n : nat) : 0 < 10 ^ Z.of_nat n.
Proof. apply Z.pow_pos_nonneg; lia. Qed.

Lemma py_round_mono (x y : Q) (n : nat) :
  (x <= y)%Q → (py_round x n <= py_round y n)%Q.
Proof.
  intros H. unfold py_round, Qle. cbn [Qnum Qden].
  apply Z.mul_le_mono_nonneg_r; [lia |].
  apply round_half_even_mono.
  pose proof (scale_pos n).
  assert (0 <= inject_Z (10 ^ Z.of_nat n))%Q
    by (change 0%Q with (inject_Z 0); rewrite <- Zle_Qle; lia).
  nra.
Qed.

Lemma py_round_compat (x y : Q) (n : nat) :
  (x == y)%Q → py_round x n = py_round y n.
Proof.
  intros H. unfold py_round. f_equal.
  apply round_half_even_compat. by rewrite H.
Qed.

End FloatFacts.

Section ActuationGate.
Import ActuationThreshold Spec.

Lemma eq_str_true v s : Py.eq_str v s = true ↔ v = PyStr s.
Proof.
  destruct v; simpl; try (split; [discriminate | congruence]).
  rewrite String.eqb_eq. split; congruence.
Qed.

Lemma status_clean_iff (inv : gmap string pyval) :
  Py.eq_str (Py.get inv "status") "CLEAN" = true
  ↔ inv !! "status" = Some (PyStr "CLEAN").
Proof.
  rewrite eq_str_true. unfold Py.get.
  destruct (inv !! "status") as [v|]; simpl; split; congruence.
Qed.

Lemma dict_truthy (p : gmap string pyval) :
  Py.truthy (PyDict p) = true ↔ p ≠ ∅.
Proof.
  simpl. rewrite negb_true_iff, Nat.eqb_neq.
  split; intros H E; apply H.
  - subst p. apply map_size_empty.
  - by apply map_size_empty_inv.
Qed.

Lemma policy_gate_spec (policy : option (gmap string pyval)) :
  match policy with
  | Some p =>
      Py.truthy (PyDict p)
      && negb (Py.truthy (Py.get_or p "allow_action" (PyBool true)))
  | None => false
  end = true ↔ policy_prohibits policy.
Proof.
  unfold policy_prohibits. destruct policy as [p|].
  - rewrite andb_true_iff, dict_truthy, negb_true_iff. unfold Py.get_or.
    split.
    + intros [H1 H2]. by exists p.
    + intros (p' & [= <-] & H1 & H2). done.
  - split; [discriminate | intros (p' & [=] & _)].
Qed.

(** C1.  Whatever the confidence (1.0 included), the threshold and the
    policy snapshot, [may_act] answers DENY "invariants not clean" as soon
    as the status entry is not the string CLEAN.  Only when it is CLEAN is
    the confidence compared with the threshold, and only when the
    confidence passes is the policy snapshot consulted. *)
Theorem may_act_invariants_first
  (confidence threshold : Q) (inv : gmap string pyval)
  (policy : option (gmap string pyval)) :
  (inv !! "status" ≠ Some (PyStr "CLEAN") →
     may_act confidence inv policy threshold
     = mk_decision "DENY" "invariants not clean")
  ∧ (inv !! "status" = Some (PyStr "CLEAN") →
     (confidence < threshold)%Q →
     may_act confidence inv policy threshold
     = mk_decision "DENY" "confidence below threshold")
  ∧ (inv !! "status" = Some (PyStr "CLEAN") →
     ¬ (confidence < threshold)%Q → policy_prohibits policy →
     may_act confidence inv policy threshold
     = mk_decision "DENY" "policy prohibits action")
  ∧ (inv !! "status" = Some (PyStr "CLEAN") →
     ¬ (confidence < threshold)%Q → ¬ policy_prohibits policy →
     may_act confidence inv policy threshold
     = mk_decision "ALLOW" "all thresholds satisfied").
Proof.
  pose proof (status_clean_iff inv) as Hs.
  pose proof (policy_gate_spec policy) as Hp.
  pose proof (ltb_lt confidence threshold) as Hlt.
  unfold may_act.
  destruct (Py.eq_str (Py.get inv "status") "CLEAN");
    cbn [negb];
    [ destruct (Float.ltb confidence threshold);
      [ | match goal with |- context [if ?c then _ else _] =>
            destruct c end ] | ];
    repeat split; intros;
    repeat match goal with
      | H : _ ↔ _ |- _ => destruct H
      end;
    first [ reflexivity
          | exfalso; auto; fail
          | exfalso;
            match goal with
            | H : _ → false = true |- _ =>
                assert (false = true) by (apply H; assumption); discriminate
            end ].
Qed.

Lemma may_act_invariants_first_witness :
  may_act 1.0%Q {[ "status" := PyStr "VIOLATED" ]}
    (Some {[ "allow_action" := PyBool true ]}) 0.75%Q
  = mk_decision "DENY" "invariants not clean".
Proof.
  apply (proj1 (may_act_invariants_first 1.0%Q 0.75%Q
                  {[ "status" := PyStr "VIOLATED" ]}
                  (Some {[ "allow_action" := PyBool true ]}))).
  vm_compute. discriminate.
Defined.

End ActuationGate.

(** ** ConfidenceScorer *)

Section ConfidenceScorer.
Import Confidence Spec.

Lemma size_zero_empty (m : gmap string pyval) :
  Nat.eqb (size m) 0 = true → m = ∅.
Proof. rewrite Nat.eqb_eq. apply map_size_empty_inv. Qed.

Lemma existsb_eq_str (l : list pyval) (s : string) :
  existsb (fun v => Py.eq_str v s) l = true ↔ In (PyStr s) l.
Proof.
  induction l as [|v l IH]; cbn [existsb In]; [split; [discriminate | tauto] |].
  rewrite orb_true_iff, IH, eq_str_true. split; (intros [H|H]; [left | right]);
    congruence.
Qed.

(** The entropy term read by [compute_confidence]. *)
Lemma entropy_read (g : option (gmap string pyval)) (e : Q) :
  snapshot_entry_is "mean_entropy" g e →
  Py.as_number
    match g with
    | Some m =>
        if truthy_dict g then Py.get_or m "mean_entropy" (PyFloat 0.0)
        else PyFloat 0.0
    | None => PyFloat 0.0
    end = Some e.
Proof.
  destruct g as [m|]; cbn [snapshot_entry_is truthy_dict Py.truthy];
    [| by intros ->].
  destruct (Nat.eqb (size m) 0) eqn:E; cbn [negb]; unfold Py.get_or.
  - apply size_zero_empty in E as ->. rewrite lookup_empty. by intros ->.
  - destruct (m !! "mean_entropy"); [done | by intros ->].
Qed.

(** The stabilize flag read by [compute_confidence]. *)
Lemma stabilized_read (g : option (gmap string pyval)) :
  well_formed_snapshot g →
  ∃ b : bool,
    match g with
    | Some m =>
        if truthy_dict g
        then contains_str (Py.get_or m "active_constraints" (PyList []))
               "stabilize"
        else Some false
    | None => Some false
    end = Some b
    ∧ (b = true ↔ snapshot_stabilized g).
Proof.
  intros Hwf. unfold snapshot_stabilized.
  destruct g as [m|]; cbn [truthy_dict Py.truthy].
  2:{ exists false. split; [done |]. split; [done |].
      by intros (? & ? & [=] & _). }
  destruct (Hwf m eq_refl) as [_ Hc].
  destruct (Nat.eqb (size m) 0) eqn:E; cbn [negb]; unfold Py.get_or.
  - apply size_zero_empty in E as ->. exists false.
    split; [done |]. split; [done |].
    intros (? & ? & [= <-] & Hl & _). by rewrite lookup_empty in Hl.
  - destruct (m !! "active_constraints") as [v|] eqn:Ev; cbn [default from_option id].
    + destruct (Hc v eq_refl) as [l ->]. cbn [contains_str].
      eexists. split; [reflexivity |]. rewrite existsb_eq_str. split.
      * intros Hin. by exists m, l.
      * intros (? & l' & [= <-] & Hl & Hin). congruence.
    + exists false. split; [done |]. split; [done |].
      intros (? & ? & [= <-] & Hl & _). congruence.
Qed.

(** The cleanliness flag read by [compute_confidence]. *)
Lemma clean_read (i : option (gmap string pyval)) :
  match i with
  | Some m =>
      if truthy_dict i
      then Py.eq_str (Py.get_or m "status" (PyStr "CLEAN")) "CLEAN"
      else true
  | None => true
  end = true ↔ status_clean i.
Proof.
  unfold status_clean. destruct i as [m|]; cbn [truthy_dict Py.truthy].
  2:{ split; [| done]. by intros _ ? ? [=]. }
  destruct (Nat.eqb (size m) 0) eqn:E; cbn [negb]; unfold Py.get_or.
  - apply size_zero_empty in E as ->. split; [| done].
    intros _ ? ? [= <-]. by rewrite lookup_empty.
  - rewrite eq_str_true.
    destruct (m !! "status") as [v|] eqn:Ev; cbn [default from_option id].
    + split.
      * intros Hv ? ? [= <-]. congruence.
      * intros H. by apply (H m).
    + split; [| done]. intros _ ? ? [= <-]. congruence.
Qed.

(** [compute_confidence] on a well-formed snapshot: it returns, and what. *)
Lemma compute_confidence_shape (g i : option (gmap string pyval)) (e : Q) :
  well_formed_snapshot g → snapshot_entry_is "mean_entropy" g e →
  ∃ stab clean : bool,
    (stab = true ↔ snapshot_stabilized g)
    ∧ (clean = true ↔ status_clean i)
    ∧ compute_confidence g i
      = Some (Float.py_round
                (Float.py_max 0.0
                   (Float.py_min
                      (if negb clean then 0.0
                       else if stab
                            then 1.0 - Float.py_min e 1.0 * 0.4 - 0.2
                            else 1.0 - Float.py_min e 1.0 * 0.4) 1.0)) 3)%Q.
Proof.
  intros Hwf He.
  destruct (stabilized_read g Hwf) as (stab & Hs & Hstab).
  pose proof (entropy_read g e He) as Hent.
  pose proof (clean_read i) as Hclean.
  unfold compute_confidence.
  rewrite Hs, Hent.
  match type of Hclean with (?c = true ↔ _) =>
    exists stab, c end.
  repeat split; try tauto.
Qed.

Lemma bool_iff_eq (a b : bool) (P : Prop) :
  (a = true ↔ P) → (b = true ↔ P) → a = b.
Proof. destruct a, b; intuition congruence. Qed.

Lemma confidence_value_spec (e : Q) (stab clean : bool) :
  (Float.py_round
     (Float.py_max 0.0
        (Float.py_min
           (if negb clean then 0.0
            else if stab then 1.0 - Float.py_min e 1.0 * 0.4 - 0.2
                 else 1.0 - Float.py_min e 1.0 * 0.4) 1.0)) 3
   == Spec.confidence e stab clean)%Q.
Proof.
  unfold Spec.confidence, Spec.clamp01. destruct clean; cbn [negb].
  - erewrite py_round_compat; [reflexivity |].
    rewrite py_max_Qmax, py_min_Qmin, (Q.min_comm _ 1.0).
    assert (E : (Qmin 1.0 (if stab then 1.0 - Float.py_min e 1.0 * 0.4 - 0.2
                           else 1.0 - Float.py_min e 1.0 * 0.4)
                 == Qmin 1 (1.0 - Qmin e 1.0 * 0.4
                            - (if stab then 0.2 else 0)))%Q).
    { pose proof (py_min_Qmin e 1.0) as Hm.
      apply Q.min_compat; [reflexivity |].
      destruct stab; rewrite Hm; ring. }
    rewrite E. apply Q.max_compat; reflexivity.
  - reflexivity.
Qed.

(** C5, as amended.  On every well-formed snapshot and every invariant
    status [compute_confidence] returns, and its result is the formula
    [round(clamp01(1.0 - min(entropy, 1.0) * 0.4 - (0.2 if stabilized
    else 0)), 3)], forced to 0.0 when the status is not clean, where
    [entropy] is the snapshot's [mean_entropy] entry (not its [entropy]
    entry); an absent input or entry counts as entropy 0, not stabilized,
    clean. *)
Theorem compute_confidence_formula
  (g i : option (gmap string pyval)) (e : Q) (stab clean : bool) :
  well_formed_snapshot g →
  snapshot_entry_is "mean_entropy" g e →
  (stab = true ↔ snapshot_stabilized g) →
  (clean = true ↔ status_clean i) →
  ∃ c, compute_confidence g i = Some c
       ∧ (c == Spec.confidence e stab clean)%Q.
Proof.
  intros Hwf He Hstab Hclean.
  destruct (compute_confidence_shape g i e Hwf He)
    as (stab' & clean' & Hs' & Hc' & ->).
  rewrite (bool_iff_eq _ _ _ Hstab Hs'), (bool_iff_eq _ _ _ Hclean Hc').
  eexists. split; [reflexivity | apply confidence_value_spec].
Qed.

Lemma compute_confidence_formula_witness :
  ∃ c, compute_confidence
         (Some (<[ "mean_entropy" := PyFloat 0.5 ]>
                  {[ "active_constraints" := PyList [PyStr "stabilize"] ]}))
         None = Some c
       ∧ (c == Spec.confidence 0.5 true true)%Q.
Proof.
  apply (compute_confidence_formula
           (Some (<[ "mean_entropy" := PyFloat 0.5 ]>
                    {[ "active_constraints" := PyList [PyStr "stabilize"] ]}))
           None 0.5 true true).
  - intros m [= <-]. split; intros v Hv; vm_compute in Hv;
      injection Hv as <-; eexists; reflexivity.
  - vm_compute. reflexivity.
  - split; [| reflexivity]. intros _.
    eexists _, [PyStr "stabilize"]. split; [reflexivity |].
    split; [vm_compute; reflexivity | left; reflexivity].
  - split; [| reflexivity]. intros _ m v [=].
Defined.

(** C5 as stated fails when [entropy] is read as the snapshot's [entropy]
    entry: after the two calls [process("")], [process("abc")] the gate
    returns a snapshot with entropy 1.0 and mean_entropy 0.5, stabilize
    raised; [compute_confidence] gives 0.6 on it, the formula at entropy
    1.0 gives 0.4. *)
Lemma compute_confidence_entropy_entry_counterexample :
  ∃ g d,
    snd (IntelligenceGate.process_all 0.30 IntelligenceGate.init [""; "abc"])
    = Some (g, d)
    ∧ snapshot_entry_is "entropy" (Some g) 1.0000
    ∧ snapshot_stabilized (Some g)
    ∧ status_clean None
    ∧ compute_confidence (Some g) None = Some 0.600%Q
    ∧ ¬ (0.600 == Spec.confidence 1.0000 true true)%Q.
Proof.
  eexists _, _. split; [evaluate |]. split; [evaluate |].
  split.
  { eexists _, [PyStr "stabilize"]. split; [reflexivity |].
    split; [evaluate | left; reflexivity]. }
  split; [intros m v [=] |]. split; evaluate.
Qed.

Lemma stabilized_insert_mean (g : gmap string pyval) (v : pyval) :
  snapshot_stabilized (Some (<[ "mean_entropy" := v ]> g))
  ↔ snapshot_stabilized (Some g).
Proof.
  unfold snapshot_stabilized. split.
  - intros (m & l & [= <-] & Hl & Hin).
    rewrite lookup_insert_ne in Hl by done. by exists g, l.
  - intros (m & l & [= <-] & Hl & Hin). eexists _, l.
    split; [reflexivity |]. by rewrite lookup_insert_ne.
Qed.

Lemma well_formed_insert_mean (g : gmap string pyval) (e : Q) :
  well_formed_snapshot (Some g) →
  well_formed_snapshot (Some (<[ "mean_entropy" := PyFloat e ]> g)).
Proof.
  intros Hwf m [= <-]. destruct (Hwf g eq_refl) as [_ Hc]. split.
  - intros v. rewrite lookup_insert_eq. intros [= <-]. by eexists.
  - intros v. rewrite lookup_insert_ne by done. apply Hc.
Qed.

(** The snapshot's [entropy] entry is not read: only [mean_entropy] and
    [active_constraints] are looked up. *)
Lemma entropy_entry_unread (g : gmap string pyval)
  (i : option (gmap string pyval)) (v : pyval) :
  compute_confidence (Some (<[ "entropy" := v ]> g)) i
  = compute_confidence (Some g) i.
Proof.
  unfold compute_confidence, truthy_dict, Py.truthy, Py.get_or.
  rewrite !lookup_insert_ne by done.
  destruct (Nat.eqb (size (<[ "entropy" := v ]> g)) 0) eqn:E1.
  { apply size_zero_empty in E1. by apply insert_non_empty in E1. }
  destruct (Nat.eqb (size g) 0) eqn:E2; [| reflexivity].
  apply size_zero_empty in E2 as ->. by rewrite !lookup_empty.
Qed.

(** When the status is not clean, a call that returns returns 0.0,
    whatever the snapshot. *)
Lemma hard_stop_when_returns (g i : option (gmap string pyval)) (c : Q) :
  ¬ status_clean i → compute_confidence g i = Some c → (c == 0)%Q.
Proof.
  intros Hdirty. pose proof (clean_read i) as Hclean.
  unfold compute_confidence. cbv zeta.
  match type of Hclean with (?k = true ↔ _) =>
    destruct k eqn:Ek; [exfalso; apply Hdirty; by apply Hclean |]
  end.
  clear Hclean Ek. cbn [negb].
  destruct (match g with Some _ => _ | None => _ end) as [stabilized|];
    [| discriminate].
  destruct (Py.as_number _) as [entropy|]; [| discriminate].
  intros [= <-]. reflexivity.
Qed.

(** C6.  With the rest of the snapshot and the invariant status fixed,
    [compute_confidence] does not increase when the entropy it reads, the
    snapshot's [mean_entropy] entry, increases; the snapshot's [entropy]
    entry has no effect at all.  On every well-formed snapshot, when the
    status is not clean it returns exactly 0.0; on any other snapshot it
    returns 0.0 if it returns. *)
Theorem compute_confidence_monotone :
  (∀ (g : gmap string pyval) (i : option (gmap string pyval)) (e1 e2 : Q),
     well_formed_snapshot (Some g) → (e1 <= e2)%Q →
     ∃ c1 c2,
       compute_confidence (Some (<[ "mean_entropy" := PyFloat e1 ]> g)) i
       = Some c1
       ∧ compute_confidence (Some (<[ "mean_entropy" := PyFloat e2 ]> g)) i
         = Some c2
       ∧ (c2 <= c1)%Q)
  ∧ (∀ (g : gmap string pyval) (i : option (gmap string pyval)) (v : pyval),
       compute_confidence (Some (<[ "entropy" := v ]> g)) i
       = compute_confidence (Some g) i)
  ∧ (∀ g i : option (gmap string pyval),
       well_formed_snapshot g → ¬ status_clean i →
       ∃ c, compute_confidence g i = Some c ∧ (c == 0)%Q)
  ∧ (∀ (g i : option (gmap string pyval)) (c : Q),
       ¬ status_clean i → compute_confidence g i = Some c → (c == 0)%Q).
Proof.
  split; [| split; [apply entropy_entry_unread |
                    split; [| apply hard_stop_when_returns]]].
  - intros g i e1 e2 Hwf Hle.
    destruct (compute_confidence_shape
                (Some (<[ "mean_entropy" := PyFloat e1 ]> g)) i e1)
      as (s1 & k1 & Hs1 & Hk1 & ->);
      [ by apply well_formed_insert_mean
      | cbn [snapshot_entry_is]; by rewrite lookup_insert_eq | ].
    destruct (compute_confidence_shape
                (Some (<[ "mean_entropy" := PyFloat e2 ]> g)) i e2)
      as (s2 & k2 & Hs2 & Hk2 & ->);
      [ by apply well_formed_insert_mean
      | cbn [snapshot_entry_is]; by rewrite lookup_insert_eq | ].
    rewrite stabilized_insert_mean in Hs1, Hs2.
    rewrite (bool_iff_eq _ _ _ Hs2 Hs1), (bool_iff_eq _ _ _ Hk2 Hk1).
    eexists _, _. split; [reflexivity |]. split; [reflexivity |].
    apply py_round_mono, py_max_le_compat, py_min_le_compat.
    pose proof (py_min_le_compat e1 e2 1.0 Hle).
    destruct k1, s1; cbn [negb]; lra.
  - intros g i Hwf Hdirty.
    assert (∃ e, snapshot_entry_is "mean_entropy" g e) as [e He].
    { destruct g as [m|]; cbn [snapshot_entry_is]; [| by eexists].
      destruct (m !! "mean_entropy") as [v|] eqn:Ev; [| by eexists].
      destruct (Hwf m eq_refl) as [Hn _].
      destruct (Hn v Ev) as [x Hx]. by exists x. }
    destruct (compute_confidence_shape g i e Hwf He)
      as (stab & clean & _ & Hc & ->).
    destruct clean; [exfalso; apply Hdirty; by apply Hc |].
    eexists. split; [reflexivity |]. cbn [negb]. reflexivity.
Qed.

Lemma compute_confidence_monotone_witness :
  (∃ c1 c2,
     compute_confidence
       (Some (<[ "mean_entropy" := PyFloat 0.2 ]>
                {[ "active_constraints" := PyList [] ]})) None = Some c1
     ∧ compute_confidence
         (Some (<[ "mean_entropy" := PyFloat 0.7 ]>
                  {[ "active_constraints" := PyList [] ]})) None = Some c2
     ∧ (c2 <= c1)%Q)
  ∧ (∃ c, compute_confidence
            (Some {[ "mean_entropy" := PyFloat 0.2 ]})
            (Some {[ "status" := PyStr "VIOLATED" ]}) = Some c
          ∧ (c == 0)%Q).
Proof.
  split.
  - apply (proj1 compute_confidence_monotone
             {[ "active_constraints" := PyList [] ]} None 0.2%Q 0.7%Q).
    + intros m [= <-]. split; intros v Hv; vm_compute in Hv;
        [discriminate | injection Hv as <-; by eexists].
    + vm_compute. discriminate.
  - apply (proj1 (proj2 (proj2 compute_confidence_monotone))
             (Some {[ "mean_entropy" := PyFloat 0.2 ]})
             (Some {[ "status" := PyStr "VIOLATED" ]})).
    + intros m [= <-]. split; intros v Hv; vm_compute in Hv;
        [injection Hv as <-; by eexists | discriminate].
    + intros H.
      specialize (H {[ "status" := PyStr "VIOLATED" ]} (PyStr "VIOLATED")
                    eq_refl eq_refl).
      discriminate.
Defined.

(** C6 as stated, for every snapshot whatsoever, fails on a snapshot that
    is not well formed: with [mean_entropy] set to [None] the entropy
    penalty [min(entropy, 1.0) * 0.4] raises [TypeError], and the hard
    stop that follows it is never reached. *)
Lemma compute_confidence_hard_stop_counterexample :
  let g : option (gmap string pyval) :=
    Some {[ "mean_entropy" := PyNone ]} in
  let i : option (gmap string pyval) :=
    Some {[ "status" := PyStr "VIOLATED" ]} in
  ¬ status_clean i
  ∧ compute_confidence g i = None
  ∧ ¬ (∀ g i : option (gmap string pyval), ¬ status_clean i →
         ∃ c, compute_confidence g i = Some c ∧ (c == 0)%Q).
Proof.
  assert (Hdirty : ¬ status_clean (Some {[ "status" := PyStr "VIOLATED" ]})).
  { intros H.
    specialize (H {[ "status" := PyStr "VIOLATED" ]} (PyStr "VIOLATED")
                  eq_refl eq_refl).
    discriminate. }
  split; [exact Hdirty |]. split; [evaluate |].
  intros H.
  destruct (H (Some {[ "mean_entropy" := PyNone ]}) _ Hdirty) as (c & Hc & _).
  vm_compute in Hc. discriminate.
Qed.

End ConfidenceScorer.

(** ** EntropyGate *)

Section EntropyGate.
Import IntelligenceGate Spec.

Lemma process_window (emax : Q) (g : gate) (text : string) :
  entropy_window (fst (process emax g text))
  = deque_append WINDOW_SIZE (entropy_window g) (sample text).
Proof. reflexivity. Qed.

Lemma process_mean_entropy (emax : Q) (g : gate) (text : string) :
  fst (snd (process emax g text)) !! "mean_entropy"
  = Some (PyFloat
            (Float.py_round (mean (entropy_window (fst (process emax g text)))) 4)).
Proof.
  unfold process. cbn [fst snd entropy_window].
  rewrite lookup_insert_ne by done. by rewrite lookup_insert_eq.
Qed.





Lemma py_sum_fold_right (w : list Q) (a : Q) :
  (fold_left Qplus w a == a + fold_right Qplus 0 w)%Q.
Proof.
  revert a. induction w as [|x w IH]; intros a; cbn [fold_left fold_right].
  - ring.
  - rewrite IH. ring.
Qed.





End EntropyGate.

(** ** InvariantVerifier *)

Section InvariantVerifier.
Import Invariants Spec.

Lemma between_incl_unit (d : gmap string pyval) (key : string) :
  entry_in_unit_interval d key →
  subscript (PyDict d) key ≫= between_incl 0.0 1.0 = Some true.
Proof.
  intros (v & x & Hv & Hx & H0 & H1). cbn [subscript]. rewrite Hv.
  cbn [mbind option_bind]. unfold between_incl. rewrite Hx.
  cbn [mbind option_bind]. f_equal. apply andb_true_iff.
  split; apply leb_le; lra.
Qed.

(** What [verify] reports is the list its loops build, whatever the
    status. *)
Lemma violations_verify (log : option (list Instrumentation.log_line)) :
  violations (verify log)
  = flat_map (fun '(i, e) => check_event i e)
      (zip (seq 0 (length (load_events log))) (load_events log)).
Proof.
  unfold verify.
  destruct (load_events log) as [|e events] eqn:E; [reflexivity |].
  cbn [length Nat.eqb].
  match goal with |- context [flat_map ?f ?l] => set (fs := flat_map f l) end.
  destruct fs; reflexivity.
Qed.

Lemma in_check_event (i j : nat) (e detail : pyval) (name : string) :
  In (j, name, detail) (check_event i e)
  ↔ j = i ∧ ∃ rule, In (name, rule) INVARIANTS
              ∧ (rule e = Some false ∧ detail = e
                 ∨ rule e = None ∧ detail = PyStr "exception").
Proof.
  unfold check_event. rewrite in_flat_map. split.
  - intros ([name' rule] & Hin & H).
    destruct (rule e) as [[|]|] eqn:Er; cbn [In] in H;
      [done | destruct H as [[= <- <- <-]|[]] .. ];
      (split; [done |]); exists rule; (split; [done |]); tauto.
  - intros (-> & rule & Hin & H). exists (name, rule). split; [done |].
    destruct H as [[-> ->]|[-> ->]]; by left.
Qed.

Lemma in_zip_seq {A} (l : list A) (i : nat) (x : A) :
  In (i, x) (zip (seq 0 (length l)) l) ↔ l !! i = Some x.
Proof.
  rewrite <- list_elem_of_In, list_elem_of_lookup. split.
  - intros (k & Hk). apply lookup_zip_with_Some in Hk
      as (a & b & [= <- <-] & Ha & Hb).
    apply lookup_seq in Ha as [-> _]. done.
  - intros Hi. exists i. apply lookup_zip_with_Some. exists i, x.
    split; [done |]. split; [| done]. apply lookup_seq.
    split; [done |]. by eapply lookup_lt_Some.
Qed.

Lemma check_event_dampening (i : nat) (d : gmap string pyval) :
  passes_other_predicates d →
  d !! "dampening" = Some (PyFloat 1.5) →
  check_event i (PyDict d) = [(i, "dampening_range", PyDict d)].
Proof.
  intros (He & Hm & [ip Hip] & [l Hl]) Hd.
  unfold check_event, INVARIANTS. cbn [flat_map].
  rewrite (between_incl_unit d "entropy" He).
  rewrite (between_incl_unit d "mean_entropy" Hm).
  cbn [subscript Confidence.contains_str get_is_list]. unfold Py.get.
  rewrite Hd, Hl, Hip. cbn [mbind option_bind default from_option id].
  rewrite bool_decide_eq_true_2 by by eexists.
  reflexivity.
Qed.

(** C8.  On an absent or empty log the verifier answers "unverifiable",
    not CLEAN.  On a log of one record that passes the four other
    predicates and has dampening 1.5 it reports exactly one violation: the
    dampening range, for record 0.  And it never stops early: on any log,
    a pair (record, predicate) is reported exactly when the predicate is
    false or raises on that record. *)
Theorem verify_exhaustive :
  (verify None = Unverifiable ∧ verify (Some []) = Unverifiable)
  ∧ (∀ d : gmap string pyval,
       passes_other_predicates d →
       d !! "dampening" = Some (PyFloat 1.5) →
       verify (Some [Some (PyDict d)])
       = ViolationsDetected [(0%nat, "dampening_range", PyDict d)])
  ∧ (∀ log i name,
       (∃ detail, In (i, name, detail) (violations (verify log)))
       ↔ ∃ e rule, load_events log !! i = Some e
                   ∧ In (name, rule) INVARIANTS ∧ rule e ≠ Some true).
Proof.
  split; [split; reflexivity |]. split.
  - intros d (He & Hm & [ip Hip] & [l Hl]) Hd.
    unfold verify. change (load_events _) with [PyDict d].
    cbn [length Nat.eqb seq zip zip_with flat_map].
    rewrite (check_event_dampening 0 d) by (done || by repeat split; eauto).
    reflexivity.
  - intros log i name. rewrite violations_verify. split.
    + intros (detail & Hin). apply in_flat_map in Hin as ([j e] & Hz & Hc).
      apply in_zip_seq in Hz. apply in_check_event in Hc
        as (-> & rule & Hr & H).
      exists e, rule. split; [done |]. split; [done |].
      destruct H as [[-> _]|[-> _]]; discriminate.
    + intros (e & rule & He & Hr & Hne).
      destruct (rule e) as [[|]|] eqn:Er; [done | |].
      * exists e. apply in_flat_map. exists (i, e).
        split; [by apply in_zip_seq |]. apply in_check_event.
        split; [done |]. exists rule. split; [done |]. by left.
      * exists (PyStr "exception"). apply in_flat_map. exists (i, e).
        split; [by apply in_zip_seq |]. apply in_check_event.
        split; [done |]. exists rule. split; [done |]. by right.
Qed.

Lemma verify_exhaustive_witness :
  verify (Some (Instrumentation.record "2026-01-01T00:00:00+00:00"
                  (fst (snd (IntelligenceGate.process 0.30
                               IntelligenceGate.init "aab"))) 1.5 []))
  = ViolationsDetected
      [(0%nat, "dampening_range",
        PyDict (<[ "ts" := PyStr "2026-01-01T00:00:00+00:00" ]>
               (<[ "entropy" := PyFloat 0.6667 ]>
               (<[ "mean_entropy" := PyFloat 0.6667 ]>
               (<[ "active_constraints" := PyList [PyStr "stabilize"] ]>
               (<[ "identity_pressure" := PyFloat 0.0000 ]>
               (<[ "dampening" := PyFloat 1.5 ]> ∅)))))))].
Proof.
  apply (proj1 (proj2 verify_exhaustive)).
  - repeat split; [unit_interval_entry .. | eexists; evaluate | eexists; evaluate].
  - evaluate.
Defined.

End InvariantVerifier.

(** ** CoherenceEstimator *)

Section CoherenceEstimator.
Import IntelligenceLayer Spec.

Lemma lstrip_blank (l : list ascii) :
  Forall (fun c => Str.isspace c = true) l → Str.lstrip_chars l = [].
Proof.
  induction 1 as [|c l Hc _ IH]; cbn [Str.lstrip_chars]; [done |].
  by rewrite Hc.
Qed.

Lemma strip_blank (text : string) : blank text → Str.strip text = "".
Proof.
  intros H. unfold Str.strip. by rewrite (lstrip_blank _ H).
Qed.

(** C10.  On a text that is empty or whitespace only,
    [estimate_coherence] returns 0.0 and leaves the carried token set as
    it was; so the call after it sees the token set that the call before
    it left, and gives what it would have given had the blank call not
    been made. *)
Theorem estimate_coherence_blank (last_tokens : gset string)
  (text next : string) :
  blank text →
  estimate_coherence last_tokens text = (0.0%Q, last_tokens)
  ∧ estimate_coherence (snd (estimate_coherence last_tokens text)) next
    = estimate_coherence last_tokens next.
Proof.
  intros H.
  assert (E : estimate_coherence last_tokens text = (0.0%Q, last_tokens)).
  { unfold estimate_coherence. by rewrite (strip_blank _ H). }
  by rewrite E.
Qed.

(** After "alpha beta." and a blank turn, "alpha beta." is scored against
    the tokens of the first turn (overlap 2), not against an empty set. *)
Lemma estimate_coherence_blank_witness :
  let tokens := snd (estimate_coherence ∅ "alpha beta.") in
  estimate_coherence tokens " " = (0.0%Q, tokens)
  ∧ estimate_coherence (snd (estimate_coherence tokens " ")) "alpha beta."
    = estimate_coherence tokens "alpha beta.".
Proof.
  apply (estimate_coherence_blank
           (snd (estimate_coherence ∅ "alpha beta.")) " " "alpha beta.").
  repeat constructor.
Defined.

Example blank_turn_keeps_overlap :
  let tokens := snd (estimate_coherence ∅ "alpha beta.") in
  let after_blank := snd (estimate_coherence tokens " ") in
  (fst (estimate_coherence after_blank "alpha beta.") == 0.585)%Q
  ∧ (fst (estimate_coherence ∅ "alpha beta.") == 0.6)%Q.
Proof. split; vm_compute; reflexivity. Qed.

End CoherenceEstimator.

(** ** SHA-256: known answers *)

Section KnownAnswers.

Example sha256_round_constants :
  take 4 SHA256.K256 = [0x428a2f98; 0x71374491; 0xb5c0fbcf; 0xe9b5dba5]
  ∧ last SHA256.K256 = Some 0xc67178f2
  ∧ length SHA256.K256 = 64%nat
  ∧ head SHA256.H_init = Some 0x6a09e667
  ∧ last SHA256.H_init = Some 0x5be0cd19.
Proof. vm_compute. repeat split. Qed.

Example sha256_abc :
  SHA256.hexdigest (Json.encode "abc")
  = "ba7816bf8f01cfea414140de5dae2223b00361a396177a9cb410ff61f20015ad".
Proof. vm_compute. reflexivity. Qed.

Example sha256_two_blocks :
  SHA256.hexdigest
    (Json.encode "abcdbcdecdefdefgefghfghighijhijkijkljklmklmnlmnomnopnopq")
  = "248d6a61d20638b8e5c026930c3e6039a33ce45964ff2167f6ecedd419db06c1".
Proof. vm_compute. reflexivity. Qed.

Example dumps_trace_example :
  Json.dumps_trace [0.5; 0.25]%Q [0.0]%Q 7
  = "{" +:+ Json.dumps_key "K" +:+ ": [0.5, 0.25], " +:+ Json.dumps_key "R"
    +:+ ": [0.0], " +:+ Json.dumps_key "t" +:+ ": 7}".
Proof. vm_compute. reflexivity. Qed.

End KnownAnswers.

(** ** StateTracker and SegmentationDecider *)

Section StateTracker.
Import IntelligenceLayer Spec.



Lemma acceleration_trigger_spec (s : ILState) :
  acceleration_trigger s = true ↔ acceleration s.
Proof.
  unfold acceleration_trigger, acceleration.
  by rewrite andb_true_iff, !ltb_lt.
Qed.

Lemma saturation_trigger_spec (s : ILState) :
  saturation_trigger s = true ↔ saturation s.
Proof.
  unfold saturation_trigger, saturation, last_n. cbn zeta.
  rewrite !andb_true_iff, !ltb_lt, Nat.leb_le, forallb_forall, Forall_forall.
  split.
  - intros (((H1 & H2) & H3) & H4). repeat split; try done.
    intros k Hk. apply ltb_lt, H4. by apply list_elem_of_In.
  - intros (H1 & H2 & H3 & H4). repeat split; try done.
    intros k Hk. apply ltb_lt, H4. by apply list_elem_of_In.
Qed.

(** C3, as amended.  For the state with K_hist = [0.5, 0.4, 0.3],
    R_t = 0.9, K_t = 0.3, the slope the update rule gives this history
    (-0.1) and no cooldown, [should_segment] is false: the saturation
    trigger needs the last three entries below 0.45 and 0.5 is not, and
    the slope is not below -0.15.  With 0.44 in place of 0.5 the saturation
    trigger fires, the acceleration trigger does not, and
    [should_segment] is true. *)
Theorem should_segment_saturation_example :
  let K_hist := [0.5; 0.4; 0.3]%Q in
  let K_hist' := [0.44; 0.4; 0.3]%Q in
  (slope_2 K_hist == -0.1)%Q
  ∧ ¬ saturation (example_state K_hist 0.3 0.9 (slope_2 K_hist) false)
  ∧ ¬ acceleration (example_state K_hist 0.3 0.9 (slope_2 K_hist) false)
  ∧ should_segment (example_state K_hist 0.3 0.9 (slope_2 K_hist) false)
    = false
  ∧ saturation (example_state K_hist' 0.3 0.9 (slope_2 K_hist') false)
  ∧ ¬ acceleration (example_state K_hist' 0.3 0.9 (slope_2 K_hist') false)
  ∧ should_segment (example_state K_hist' 0.3 0.9 (slope_2 K_hist') false)
    = true.
Proof.
  cbn zeta. split; [reflexivity |].
  rewrite <- !saturation_trigger_spec, <- !acceleration_trigger_spec.
  repeat split; try reflexivity; vm_compute; discriminate.
Qed.

(** C3 as stated fails: on that state [should_segment] is not true. *)
Lemma should_segment_saturation_counterexample :
  should_segment
    (example_state [0.5; 0.4; 0.3]%Q 0.3 0.9 (slope_2 [0.5; 0.4; 0.3]%Q) false)
  ≠ true.
Proof. vm_compute. discriminate. Qed.

(** C4.  In cooldown, [should_segment] is true exactly when one of the
    two triggers fires and moreover [Kt_slope_2 < -0.30]; for the state
    with K_hist = [0.5, 0.4, 0.3], R_t = 0.9, K_t = 0.3, cooldown active
    and slope -0.20 it is false. *)
Theorem should_segment_cooldown_bar :
  (∀ s : ILState,
     cooldown_active s = true →
     (should_segment s = true
      ↔ (acceleration s ∨ saturation s) ∧ (Kt_slope_2 s < -0.30)%Q))
  ∧ should_segment (example_state [0.5; 0.4; 0.3]%Q 0.3 0.9 (-0.20) true)
    = false.
Proof.
  split; [| reflexivity].
  intros s Hc. unfold should_segment. rewrite Hc.
  by rewrite andb_true_iff, orb_true_iff, ltb_lt,
    acceleration_trigger_spec, saturation_trigger_spec.
Qed.

Lemma should_segment_cooldown_bar_witness :
  should_segment (example_state [0.9; 0.5; 0.1]%Q 0.1 0.9 (-0.4) true) = true
  ↔ (acceleration (example_state [0.9; 0.5; 0.1]%Q 0.1 0.9 (-0.4) true)
     ∨ saturation (example_state [0.9; 0.5; 0.1]%Q 0.1 0.9 (-0.4) true))
    ∧ (Kt_slope_2 (example_state [0.9; 0.5; 0.1]%Q 0.1 0.9 (-0.4) true)
       < -0.30)%Q.
Proof.
  apply (proj1 should_segment_cooldown_bar
           (example_state [0.9; 0.5; 0.1]%Q 0.1 0.9 (-0.4) true)).
  reflexivity.
Defined.




End StateTracker.

(** ** Texts: stripping, splitting and joining *)

Section Texts.
Import Spec.

Lemma chars_of_chars (l : list ascii) : Str.chars (Str.of_chars l) = l.
Proof. apply list_ascii_of_string_of_list_ascii. Qed.

Lemma of_chars_chars (s : string) : Str.of_chars (Str.chars s) = s.
Proof. apply string_of_list_ascii_of_string. Qed.

Lemma chars_append (a b : string) :
  Str.chars (a +:+ b) = Str.chars a ++ Str.chars b.
Proof.
  unfold Str.chars. induction a as [|c a IH]; [reflexivity |].
  change (String c a +:+ b) with (String c (a +:+ b)).
  cbn [list_ascii_of_string app]. by rewrite IH.
Qed.

Lemma lstrip_idem (l : list ascii) :
  Str.lstrip_chars (Str.lstrip_chars l) = Str.lstrip_chars l.
Proof.
  induction l as [|c l IH]; [reflexivity |]. cbn [Str.lstrip_chars].
  destruct (Str.isspace c) eqn:E; [apply IH |].
  cbn [Str.lstrip_chars]. by rewrite E.
Qed.

(** What is left after stripping on the left is empty or starts with a
    character that is not whitespace. *)
Lemma lstrip_head (l : list ascii) :
  Str.lstrip_chars l = []
  ∨ ∃ c l', Str.lstrip_chars l = c :: l' ∧ Str.isspace c = false.
Proof.
  induction l as [|c l IH]; [by left |]. cbn [Str.lstrip_chars].
  destruct (Str.isspace c) eqn:E; [apply IH | right; eauto].
Qed.

Lemma lstrip_snoc (a : list ascii) (c : ascii) :
  Str.isspace c = false →
  Str.lstrip_chars (a ++ [c]) = Str.lstrip_chars a ++ [c].
Proof.
  intros Hc. induction a as [|x a IH]; cbn [app Str.lstrip_chars].
  - by rewrite Hc.
  - destruct (Str.isspace x); [apply IH | reflexivity].
Qed.

Lemma lstrip_nil (l : list ascii) :
  Str.lstrip_chars l = [] ↔ Forall (fun c => Str.isspace c = true) l.
Proof.
  induction l as [|c l IH]; cbn [Str.lstrip_chars]; [by split |].
  destruct (Str.isspace c) eqn:E.
  - rewrite IH. split; [by constructor | by inversion 1].
  - split; [discriminate | inversion 1; congruence].
Qed.

Lemma strip_idem (s : string) : Str.strip (Str.strip s) = Str.strip s.
Proof.
  unfold Str.strip. rewrite chars_of_chars.
  destruct (lstrip_head (Str.chars s)) as [->|(c & u & -> & Hc)];
    [reflexivity |].
  cbn [rev]. rewrite (lstrip_snoc _ _ Hc), rev_app_distr. cbn [rev app].
  cbn [Str.lstrip_chars]. rewrite Hc. cbn [rev].
  rewrite (lstrip_snoc _ _ Hc), rev_app_distr. cbn [rev app].
  by rewrite rev_involutive, lstrip_idem.
Qed.

Lemma of_chars_nil (l : list ascii) : Str.of_chars l = "" ↔ l = [].
Proof. destruct l; cbn; split; congruence. Qed.

Lemma strip_empty (s : string) : Str.strip s = "" ↔ blank s.
Proof.
  unfold Str.strip, blank. rewrite of_chars_nil. split.
  - intros H. destruct (lstrip_head (Str.chars s)) as [E|(c & u & E & Hc)].
    + by apply lstrip_nil.
    + rewrite E in H. cbn [rev] in H.
      rewrite (lstrip_snoc _ _ Hc), rev_app_distr in H. discriminate.
  - intros H. apply lstrip_nil in H. by rewrite H.
Qed.

Lemma not_truthy_str (s : string) :
  negb (Py.truthy (PyStr s)) = true ↔ s = "".
Proof.
  cbn. rewrite negb_involutive, Nat.eqb_eq.
  destruct s; cbn; split; congruence.
Qed.

(** A token: a non-empty text without whitespace. *)
Lemma split_chars_word (w cur rest : list ascii) :
  Forall (fun c => Str.isspace c = false) w →
  Str.split_chars cur (w ++ rest) = Str.split_chars (rev w ++ cur) rest.
Proof.
  intros H. revert cur. induction H as [|c w Hc _ IH]; intros cur;
    [reflexivity |].
  cbn [app Str.split_chars rev]. rewrite Hc, IH, <- app_assoc. reflexivity.
Qed.

Lemma split_chars_tokens (l cur : list ascii) :
  Forall (fun c => Str.isspace c = false) cur →
  Forall (fun w => w ≠ ""
                   ∧ Forall (fun c => Str.isspace c = false) (Str.chars w))
         (Str.split_chars cur l).
Proof.
  revert cur. induction l as [|c l IH]; intros cur Hcur;
    cbn [Str.split_chars].
  - destruct cur as [|x cur]; constructor; [| constructor].
    split.
    + rewrite of_chars_nil. cbn [rev]. by destruct (rev cur).
    + rewrite chars_of_chars. by apply Forall_rev.
  - destruct (Str.isspace c) eqn:E.
    + destruct cur as [|x cur]; [by apply IH |].
      constructor; [| by apply IH]. split.
      * rewrite of_chars_nil. cbn [rev]. by destruct (rev cur).
      * rewrite chars_of_chars. by apply Forall_rev.
    + apply IH. by constructor.
Qed.

Lemma split_chars_end (cur : list ascii) :
  cur ≠ [] → Str.split_chars cur [] = [Str.of_chars (rev cur)].
Proof. by destruct cur. Qed.

Lemma split_chars_space (cur rest : list ascii) (c : ascii) :
  Str.isspace c = true → cur ≠ [] →
  Str.split_chars cur (c :: rest)
  = Str.of_chars (rev cur) :: Str.split_chars [] rest.
Proof. intros Hc Hcur. cbn [Str.split_chars]. rewrite Hc. by destruct cur. Qed.

(** Splitting what was joined with single spaces gives the tokens back. *)
Lemma split_join (ws : list string) :
  Forall (fun w => w ≠ ""
                   ∧ Forall (fun c => Str.isspace c = false) (Str.chars w)) ws →
  Str.split (Json.join " " ws) = ws.
Proof.
  unfold Str.split. induction 1 as [|w ws [Hne Hw] Hws IH]; [reflexivity |].
  assert (Hrev : Str.of_chars (rev (rev (Str.chars w))) = w)
    by (by rewrite rev_involutive, of_chars_chars).
  assert (Hnil : rev (Str.chars w) ≠ []).
  { intros E. apply Hne. rewrite <- Hrev, E. reflexivity. }
  destruct ws as [|w' ws].
  - cbn [Json.join]. rewrite <- (app_nil_r (Str.chars w)).
    rewrite (split_chars_word _ _ _ Hw), app_nil_r.
    by rewrite split_chars_end, Hrev.
  - change (Json.join " " (w :: w' :: ws))
      with (w +:+ " " +:+ Json.join " " (w' :: ws)).
    rewrite !chars_append, (split_chars_word _ _ _ Hw), app_nil_r.
    change (Str.chars " ") with [" "%char]. cbn [app].
    rewrite split_chars_space by done. by rewrite Hrev, IH.
Qed.

End Texts.

(** ** The reasoning pipeline: classification, binding, dispatch,
       execution *)

Section Pipeline.
Import ActuationThreshold Spec.

Ltac blank_case H :=
  match goal with
  | |- context [negb (Py.truthy (PyStr (Str.strip ?t)))] =>
      destruct (negb (Py.truthy (PyStr (Str.strip t)))) eqn:H
  end.

Lemma blank_test (text : string) :
  negb (Py.truthy (PyStr (Str.strip text))) = true ↔ blank text.
Proof. by rewrite not_truthy_str, strip_empty. Qed.

(** Every component that tests for empty input tests the same thing:
    [reason] answers "no-input", [classify] answers "empty" and [execute]
    answers NOOP exactly on the texts that are empty or whitespace only. *)
Theorem blank_input_agreement (text : string)
  (context : option (gmap string pyval)) :
  (Intelligence.reason text context !! "status" = Some "no-input"
   ↔ blank text)
  ∧ (Capabilities.classify text !! "type" = Some "empty" ↔ blank text)
  ∧ (ExecutionStub.execute "explain" text !! "status" = Some "NOOP"
     ↔ blank text).
Proof.
  pose proof (blank_test text) as Hb.
  unfold Intelligence.reason, Capabilities.classify, ExecutionStub.execute.
  cbn [String.eqb Ascii.eqb Bool.eqb negb andb]. cbn zeta.
  destruct (negb (Py.truthy (PyStr (Str.strip text)))).
  - repeat split; intros _; first [by apply Hb | reflexivity].
  - assert (¬ blank text) by (intros H; apply Hb in H; discriminate).
    repeat split; try done;
      repeat match goal with
        | |- context [if ?c then _ else _] => destruct c
        end; intros [=].
Qed.

(** Leading and trailing whitespace never matters to [classify],
    [reason], [execute] or the entropy gate. *)
Theorem margins_ignored (text capability : string)
  (context : option (gmap string pyval)) (emax : Q)
  (g : IntelligenceGate.gate) :
  Capabilities.classify (Str.strip text) = Capabilities.classify text
  ∧ Intelligence.reason (Str.strip text) context
    = Intelligence.reason text context
  ∧ ExecutionStub.execute capability (Str.strip text)
    = ExecutionStub.execute capability text
  ∧ IntelligenceGate.process emax g (Str.strip text)
    = IntelligenceGate.process emax g text.
Proof.
  unfold Capabilities.classify, Intelligence.reason, ExecutionStub.execute,
    IntelligenceGate.process, IntelligenceGate.extract_signal.
  by rewrite strip_idem.
Qed.

(** [summarize] keeps the first [max_words] words: splitting its summary
    gives back exactly the slice of the words of the text.  For a bound
    that is not negative the summary has no more than [max_words] words
    and summarizing it again changes nothing (a negative bound drops words
    from the end each time). *)
Theorem summarize_words (text : string) (max_words : option Z) :
  ∃ summary,
    Capabilities.summarize text max_words !! "summary" = Some summary
    ∧ Str.split summary = PySeq.up_to max_words (Str.split text)
    ∧ ((∀ k, max_words = Some k → 0 ≤ k) →
       Capabilities.summarize summary max_words
       = Capabilities.summarize text max_words)
    ∧ ∀ k, max_words = Some k → 0 ≤ k →
           (length (Str.split summary) ≤ Z.to_nat k)%nat.
Proof.
  unfold Capabilities.summarize. eexists. split; [apply lookup_singleton_eq |].
  assert (Htok : ∀ k, Forall (fun w => w ≠ ""
             ∧ Forall (fun c => Str.isspace c = false) (Str.chars w))
            (PySeq.up_to k (Str.split text))).
  { intros k. pose proof (split_chars_tokens (Str.chars text) [] ltac:(constructor))
      as H.
    unfold PySeq.up_to, Str.split.
    destruct k as [k|]; [| done]. destruct (k <? 0); by apply Forall_take. }
  assert (Hsplit : Str.split (Json.join " " (PySeq.up_to max_words (Str.split text)))
                   = PySeq.up_to max_words (Str.split text))
    by apply split_join, Htok.
  split; [done |]. split.
  - intros Hk. rewrite Hsplit. do 2 f_equal. unfold PySeq.up_to.
    destruct max_words as [k|]; [| done]. specialize (Hk k eq_refl).
    destruct (Z.ltb_spec k 0); [lia |]. rewrite take_take. f_equal. lia.
  - intros k -> Hk. rewrite Hsplit. unfold PySeq.up_to.
    destruct (Z.ltb_spec k 0); [lia |]. rewrite length_take. lia.
Qed.

Lemma summarize_words_witness :
  ∃ summary,
    Capabilities.summarize "one  two three" (Some 2) !! "summary"
    = Some summary
    ∧ Str.split summary = ["one"; "two"]
    ∧ Capabilities.summarize summary (Some 2)
      = Capabilities.summarize "one  two three" (Some 2)
    ∧ (length (Str.split summary) ≤ 2)%nat.
Proof.
  destruct (summarize_words "one  two three" (Some 2))
    as (summary & H1 & H2 & H3 & H4).
  exists summary. split; [exact H1 |]. split; [exact H2 |]. split.
  - apply H3. intros k Hk. apply (inj Some) in Hk. subst k. lia.
  - apply (H4 2); [reflexivity | lia].
Defined.

Lemma bindings_lookup (intent : string) :
  default [] (IntentBindings.INTENT_BINDINGS !! intent) = ["explain"]
  ∧ (intent = "explanation" ∨ intent = "question")
  ∨ default [] (IntentBindings.INTENT_BINDINGS !! intent) = []
    ∧ intent ≠ "explanation" ∧ intent ≠ "question".
Proof.
  unfold IntentBindings.INTENT_BINDINGS.
  destruct (decide (intent = "statement")) as [->|?];
    [right; repeat split; first [reflexivity | discriminate] |].
  rewrite lookup_insert_ne by done.
  destruct (decide (intent = "explanation")) as [->|?];
    [left; split; [reflexivity | by left] |].
  rewrite lookup_insert_ne by done.
  destruct (decide (intent = "question")) as [->|?];
    [left; split; [reflexivity | by right] |].
  rewrite lookup_insert_ne by done.
  destruct (decide (intent = "request")) as [->|?];
    [right; repeat split; first [reflexivity | discriminate] |].
  rewrite lookup_insert_ne, lookup_empty by done. by right.
Qed.

(** In the pipeline of [intelligence.main] the intent comes from
    [extract_intent], so a capability is bound only to a text that
    contains "why" (in any letter case), and only with clean invariants
    and a confidence of at least 0.5; every other text gets none. *)
Theorem binding_needs_why (text : string) (confidence : Q)
  (inv : gmap string pyval) :
  ∃ intent,
    Capabilities.extract_intent text !! "intent" = Some intent
    ∧ let caps :=
        IntentBindings.allowed
          (IntentBindings.allowed_capabilities intent confidence inv) in
      (caps = ["explain"] ∨ caps = [])
      ∧ (caps = ["explain"]
         ↔ inv !! "status" = Some (PyStr "CLEAN")
           ∧ (0.5 <= confidence)%Q
           ∧ Str.contains (Str.lower text) "why" = true).
Proof.
  pose proof (status_clean_iff inv) as Hs.
  pose proof (ltb_ge confidence 0.5) as Hc.
  pose proof (ltb_lt confidence 0.5) as Hc'.
  unfold Capabilities.extract_intent, IntentBindings.allowed_capabilities.
  cbn zeta.
  destruct (Py.eq_str (Py.get inv "status") "CLEAN"); cbn [negb];
    [destruct (Float.ltb confidence 0.5) |];
    repeat match goal with
      | |- context [if ?c then _ else _] => destruct c eqn:?
      end;
    eexists; (split; [apply lookup_singleton_eq |]);
    cbn [IntentBindings.allowed];
    (split; [first [by left | by right] |]);
    (split; [try discriminate; intros _ | intros (H1 & H2 & H3)]);
    try discriminate; try reflexivity;
    try (repeat split; first [by apply Hs | by apply Hc | reflexivity]);
    try (apply Hs in H1; discriminate);
    try (assert (confidence < 0.5)%Q by (by apply Hc'); lra).
Qed.

(** Whatever [allowed_capabilities] binds can be carried out: the bound
    list is empty or the single capability "explain", [execute] never
    answers DENIED on a bound capability, and [dispatch] never reports a
    capability without dispatch behaviour. *)
Theorem bound_capabilities_executable (intent text : string) (confidence : Q)
  (inv : gmap string pyval) :
  let caps :=
    IntentBindings.allowed
      (IntentBindings.allowed_capabilities intent confidence inv) in
  (caps = [] ∨ caps = ["explain"])
  ∧ (∀ cap, In cap caps →
       ExecutionStub.execute cap text !! "status" ≠ Some "DENIED")
  ∧ (Dispatch.dispatch caps text
     = Dispatch.mk_dispatch "noop" "No capabilities permitted for this intent."
     ∨ Dispatch.dispatch caps text
       = Dispatch.mk_dispatch "dry-run"
           "System would generate an explanation based solely on explicit input.").
Proof.
  assert (H : ∀ caps : list string, caps = [] ∨ caps = ["explain"] →
    (caps = [] ∨ caps = ["explain"])
    ∧ (∀ cap, In cap caps →
         ExecutionStub.execute cap text !! "status" ≠ Some "DENIED")
    ∧ (Dispatch.dispatch caps text
       = Dispatch.mk_dispatch "noop" "No capabilities permitted for this intent."
       ∨ Dispatch.dispatch caps text
         = Dispatch.mk_dispatch "dry-run"
             "System would generate an explanation based solely on explicit input.")).
  { intros caps [->| ->]; (split; [tauto |]); split.
    - intros c [].
    - by left.
    - intros c [<-|[]]. unfold ExecutionStub.execute.
      cbn [String.eqb Ascii.eqb Bool.eqb negb andb].
      by destruct (negb (Py.truthy (PyStr (Str.strip text)))).
    - by right. }
  cbn zeta. apply H. unfold IntentBindings.allowed_capabilities.
  repeat match goal with
    | |- context [if ?c then _ else _] => destruct c
    end; cbn [IntentBindings.allowed]; try (by left).
  destruct (bindings_lookup intent) as [[-> _]|[-> _]]; tauto.
Qed.

Lemma bound_capabilities_executable_witness :
  ExecutionStub.execute "explain" "why is it so" !! "status" ≠ Some "DENIED".
Proof.
  apply (proj1 (proj2 (bound_capabilities_executable "explanation"
                         "why is it so" 0.9
                         {[ "status" := PyStr "CLEAN" ]})) "explain").
  vm_compute. by left.
Defined.

(** [may_execute] allows only on explicit opt-in: mode "execute", the
    operator's approval and a non-empty capability list together.  So when
    the invariants are not clean, or the confidence is below 0.5, what
    [allowed_capabilities] returns is denied execution in every mode. *)
Theorem may_execute_opt_in (capabilities : list string) (mode intent : string)
  (operator_ok : bool) (confidence : Q) (inv : gmap string pyval) :
  (decision (ExecutionBinding.may_execute capabilities mode operator_ok)
   = "ALLOW"
   ↔ mode = "execute" ∧ operator_ok = true ∧ capabilities ≠ [])
  ∧ (inv !! "status" ≠ Some (PyStr "CLEAN") ∨ (confidence < 0.5)%Q →
     decision
       (ExecutionBinding.may_execute
          (IntentBindings.allowed
             (IntentBindings.allowed_capabilities intent confidence inv))
          mode operator_ok) = "DENY").
Proof.
  assert (Hallow : ∀ caps,
    decision (ExecutionBinding.may_execute caps mode operator_ok) = "ALLOW"
    ↔ mode = "execute" ∧ operator_ok = true ∧ caps ≠ []).
  { intros caps. unfold ExecutionBinding.may_execute.
    destruct (String.eqb_spec mode "execute") as [->|Hm]; cbn [negb].
    - destruct operator_ok; cbn [negb].
      + destruct caps; cbn [length Nat.eqb decision];
          split; try discriminate; try done. by intros (_ & _ & ?).
      + split; [discriminate | by intros (_ & [=] & _)].
    - split; [discriminate | by intros (? & _)]. }
  split; [apply Hallow |].
  intros Hbad.
  assert (IntentBindings.allowed
            (IntentBindings.allowed_capabilities intent confidence inv) = [])
    as ->.
  { unfold IntentBindings.allowed_capabilities.
    pose proof (status_clean_iff inv) as Hs.
    pose proof (ltb_lt confidence 0.5) as Hc.
    destruct (Py.eq_str (Py.get inv "status") "CLEAN"); cbn [negb];
      [| reflexivity].
    destruct (Float.ltb confidence 0.5); [reflexivity |].
    destruct Hbad as [Hbad|Hbad]; [destruct Hbad; by apply Hs |].
    apply Hc in Hbad. discriminate. }
  unfold ExecutionBinding.may_execute.
  destruct (negb (String.eqb mode "execute")); [reflexivity |].
  by destruct (negb operator_ok).
Qed.

Lemma may_execute_opt_in_witness :
  decision
    (ExecutionBinding.may_execute
       (IntentBindings.allowed
          (IntentBindings.allowed_capabilities "explanation" 1.0
             {[ "status" := PyStr "VIOLATED" ]}))
       "execute" true) = "DENY".
Proof.
  apply (proj2 (may_execute_opt_in [] "execute" "explanation" true 1.0
                  {[ "status" := PyStr "VIOLATED" ]})).
  left. evaluate.
Defined.

End Pipeline.

(** ** The actuation gate and its callers *)

Section ActuationFacts.
Import ActuationThreshold Spec.

(** An allowed action stays allowed when the confidence rises or the
    threshold falls, everything else equal. *)
Theorem may_act_allow_upward (c c' thr thr' : Q) (inv : gmap string pyval)
  (policy : option (gmap string pyval)) :
  decision (may_act c inv policy thr) = "ALLOW" →
  (c <= c')%Q → (thr' <= thr)%Q →
  may_act c' inv policy thr' = mk_decision "ALLOW" "all thresholds satisfied".
Proof.
  unfold may_act.
  destruct (negb (Py.eq_str (Py.get inv "status") "CLEAN")); [discriminate |].
  destruct (ltb_reflect c thr); [discriminate |].
  destruct (ltb_reflect c' thr'); [lra |].
  match goal with |- context [if ?b then _ else _] => destruct b end;
    [discriminate | reflexivity].
Qed.

Lemma may_act_allow_upward_witness :
  may_act 0.9 {[ "status" := PyStr "CLEAN" ]} None 0.5
  = mk_decision "ALLOW" "all thresholds satisfied".
Proof.
  apply (may_act_allow_upward 0.8 0.9 0.75 0.5
           {[ "status" := PyStr "CLEAN" ]} None); evaluate.
Defined.

(** Whatever [may_act] allows at a threshold of at least 0.5 (the default
    is 0.75) is not refused by [allowed_capabilities]: the binding it
    returns is the table's, with reason "explicit binding". *)
Theorem may_act_allow_binds (c thr : Q) (inv : gmap string pyval)
  (policy : option (gmap string pyval)) (intent : string) :
  decision (may_act c inv policy thr) = "ALLOW" → (0.5 <= thr)%Q →
  IntentBindings.allowed_capabilities intent c inv
  = IntentBindings.mk_binding
      (default [] (IntentBindings.INTENT_BINDINGS !! intent))
      "explicit binding".
Proof.
  unfold may_act, IntentBindings.allowed_capabilities.
  destruct (negb (Py.eq_str (Py.get inv "status") "CLEAN")); [discriminate |].
  destruct (ltb_reflect c thr); [discriminate |].
  intros _ Hthr. destruct (ltb_reflect c 0.5); [lra | reflexivity].
Qed.

Lemma may_act_allow_binds_witness :
  IntentBindings.allowed_capabilities "explanation" 0.8
    {[ "status" := PyStr "CLEAN" ]}
  = IntentBindings.mk_binding
      (default [] (IntentBindings.INTENT_BINDINGS !! "explanation"))
      "explicit binding".
Proof.
  apply (may_act_allow_binds 0.8 0.75 {[ "status" := PyStr "CLEAN" ]} None);
    evaluate.
Defined.

(** A policy snapshot without an [allow_action] entry, the empty one
    included, counts as no policy at all. *)
Theorem may_act_policy_default (c thr : Q) (inv p : gmap string pyval) :
  p !! "allow_action" = None →
  may_act c inv (Some p) thr = may_act c inv None thr.
Proof.
  intros Hp. unfold may_act, Py.get_or. rewrite Hp. cbn [default from_option].
  cbn [Py.truthy negb]. by rewrite andb_false_r.
Qed.

Lemma may_act_policy_default_witness :
  may_act 0.8 {[ "status" := PyStr "CLEAN" ]}
    (Some {[ "mode" := PyStr "strict" ]}) 0.75
  = may_act 0.8 {[ "status" := PyStr "CLEAN" ]} None 0.75.
Proof.
  apply (may_act_policy_default 0.8 0.75 {[ "status" := PyStr "CLEAN" ]}
           {[ "mode" := PyStr "strict" ]}).
  evaluate.
Defined.

End ActuationFacts.

(** ** The entropy gate and the log it feeds *)

Section GateFacts.
Import IntelligenceGate Spec.

Lemma length_chars (s : string) : length (Str.chars s) = String.length s.
Proof. induction s as [|c s IH]; cbn; [done | by rewrite <- IH]. Qed.

Lemma size_list_to_set_le (l : list ascii) :
  (size (list_to_set l : gset ascii) ≤ length l)%nat.
Proof.
  induction l as [|c l IH]; [by rewrite list_to_set_nil, size_empty |].
  rewrite list_to_set_cons, size_union_alt, size_singleton. cbn [length].
  assert (size (list_to_set l ∖ {[c]} : gset ascii)
          ≤ size (list_to_set l : gset ascii))%nat
    by (apply subseteq_size; set_solver).
  lia.
Qed.

Lemma measure_entropy_unit (text : string) :
  (0 <= measure_entropy text <= 1)%Q
  ∧ ((measure_entropy text == 0)%Q ↔ text = "").
Proof.
  unfold measure_entropy.
  destruct (Nat.eqb_spec (String.length text) 0) as [E|E].
  - split; [split; evaluate |]. split; [| reflexivity].
    destruct text; [done | discriminate].
  - pose proof (size_list_to_set_le (Str.chars text)) as Hle.
    rewrite length_chars in Hle.
    assert (0 < size (list_to_set (Str.chars text) : gset ascii))%nat.
    { destruct text as [|c t]; [done |].
      apply Nat.neq_0_lt_0, size_non_empty_iff.
      change (Str.chars (String c t)) with (c :: Str.chars t).
      rewrite list_to_set_cons. set_solver. }
    unfold Qle, Qeq. cbn [Qnum Qden].
    split; [split; lia |]. split; [lia | intros ->; done].
Qed.

Lemma sample_range (text : string) : (0 <= sample text <= 1)%Q.
Proof. apply measure_entropy_unit. Qed.

(** [measure_entropy] is a ratio in [0, 1], and it is 0 on the empty text
    only; the sample [process] takes is 0 exactly on a text that is empty
    or whitespace only. *)
Theorem measure_entropy_range (text : string) :
  (0 <= measure_entropy text <= 1)%Q
  ∧ ((measure_entropy text == 0)%Q ↔ text = "")
  ∧ ((sample text == 0)%Q ↔ blank text).
Proof.
  split; [apply measure_entropy_unit |]. split; [apply measure_entropy_unit |].
  unfold sample, extract_signal.
  rewrite (proj2 (measure_entropy_unit (Str.strip text))).
  apply strip_empty.
Qed.

Lemma sum_range (w : list Q) :
  Forall (fun x => (0 <= x <= 1)%Q) w →
  (0 <= fold_right Qplus 0 w <= inject_Z (Z.of_nat (length w)))%Q.
Proof.
  induction 1 as [|x w [H0 H1] _ [IH0 IH1]]; cbn [fold_right length].
  - split; apply Qle_refl.
  - rewrite Nat2Z.inj_succ, <- Z.add_1_r, inject_Z_plus.
    change (inject_Z 1) with 1%Q. split; lra.
Qed.

Lemma mean_range (w : list Q) :
  Forall (fun x => (0 <= x <= 1)%Q) w → (0 <= mean w <= 1)%Q.
Proof.
  intros Hw. unfold mean, Float.div_len, Float.py_sum.
  destruct (Nat.eqb_spec (length w) 0) as [E|E]; [split; evaluate |].
  destruct (sum_range w Hw) as [H0 H1].
  assert (Hn : (0 < inject_Z (Z.of_nat (length w)))%Q).
  { change 0%Q with (inject_Z 0). rewrite <- Zlt_Qlt. lia. }
  rewrite py_sum_fold_right, Qplus_0_l. split.
  - apply Qle_shift_div_l; [done | lra].
  - apply Qle_shift_div_r; [done | lra].
Qed.

Lemma round_unit (x : Q) (n : nat) :
  (0 <= x <= 1)%Q → (0 <= Float.py_round x n <= 1)%Q.
Proof.
  intros [H0 H1].
  pose proof (py_round_mono 0 x n H0) as L.
  pose proof (py_round_mono x 1 n H1) as U.
  assert (E0 : (Float.py_round 0 n == 0)%Q) by reflexivity.
  assert (E1 : (Float.py_round 1 n == 1)%Q).
  { unfold Float.py_round, Float.round_half_even, Qeq.
    cbn [Qnum Qden Qmult inject_Z].
    pose proof (scale_pos n). rewrite Pos.mul_1_r, Z.mul_1_l.
    rewrite Z.div_1_r, Z.mod_1_r. change (2 * 0 ?= 1) with Lt. cbn iota.
    rewrite Z2Pos.id by done. lia. }
  lra.
Qed.

Lemma window_range_step (emax : Q) (g : gate) (text : string) :
  Forall (fun x => (0 <= x <= 1)%Q) (entropy_window g) →
  Forall (fun x => (0 <= x <= 1)%Q)
    (entropy_window (fst (process emax g text))).
Proof.
  intros H. rewrite process_window. unfold deque_append.
  destruct (Nat.eqb WINDOW_SIZE 0); [done |].
  destruct (length (entropy_window g) <? WINDOW_SIZE)%nat;
    apply Forall_app; (split; [| by repeat constructor; apply sample_range]);
    [done | by apply Forall_drop].
Qed.

(** A record passes all five rules. *)
Lemma check_event_passes (i : nat) (d : gmap string pyval) :
  entry_in_unit_interval d "entropy" →
  entry_in_unit_interval d "mean_entropy" →
  (∃ x, d !! "dampening" = Some (PyFloat x) ∧ (0 < x <= 1)%Q) →
  is_Some (d !! "identity_pressure") →
  (∃ l, d !! "active_constraints" = Some (PyList l)) →
  Invariants.check_event i (PyDict d) = [].
Proof.
  intros He Hm (x & Hd & Hx0 & Hx1) [ip Hip] [l Hl].
  unfold Invariants.check_event, Invariants.INVARIANTS. cbn [flat_map].
  rewrite (between_incl_unit d "entropy" He).
  rewrite (between_incl_unit d "mean_entropy" Hm).
  cbn [Invariants.subscript Confidence.contains_str Invariants.get_is_list].
  unfold Py.get. rewrite Hd, Hl, Hip.
  cbn [mbind option_bind default from_option id].
  rewrite bool_decide_eq_true_2 by by eexists.
  unfold Invariants.between_excl_incl. cbn [Py.as_number mbind option_bind].
  assert (Float.ltb 0.0 x && Float.leb x 1.0 = true) as ->; [| reflexivity].
  apply andb_true_iff. split; [apply ltb_lt | apply leb_le]; lra.
Qed.

Lemma violations_snoc (log : list Instrumentation.log_line) (e : pyval) :
  violations (Invariants.verify (Some (log ++ [Some e])))
  = violations (Invariants.verify (Some log))
    ++ Invariants.check_event
         (length (Invariants.load_events (Some log))) e.
Proof.
  rewrite !violations_verify. unfold Invariants.load_events.
  rewrite omap_app. cbn [omap list_omap id]. set (ev := omap id log).
  rewrite length_app. cbn [length]. rewrite Nat.add_1_r, seq_S.
  rewrite zip_with_app by by rewrite length_seq.
  rewrite flat_map_app. cbn [zip_with flat_map]. by rewrite app_nil_r.
Qed.

(** What the gate emits always satisfies the declared invariants: on a
    gate whose window holds values in [0, 1] (a fresh gate does), the
    window after [process] still does, and recording the returned snapshot
    and dampening adds no violation to what [verify] reports on the log. *)
Theorem gate_output_passes_verifier (emax : Q) (g : gate) (text ts : string)
  (log : list Instrumentation.log_line) :
  Forall (fun x => (0 <= x <= 1)%Q) (entropy_window g) →
  let out := process emax g text in
  Forall (fun x => (0 <= x <= 1)%Q) (entropy_window (fst out))
  ∧ violations
      (Invariants.verify
         (Some (Instrumentation.record ts (fst (snd out)) (snd (snd out)) log)))
    = violations (Invariants.verify (Some log)).
Proof.
  intros Hw. cbn zeta.
  pose proof (window_range_step emax g text Hw) as Hw'.
  split; [done |].
  unfold Instrumentation.record. rewrite violations_snoc.
  rewrite check_event_passes; [by rewrite app_nil_r | ..].
  - eexists _, _. split.
    { rewrite lookup_insert_ne by done. rewrite lookup_insert_eq.
      unfold Py.get, process. cbn [fst snd]. by rewrite lookup_insert_eq. }
    split; [reflexivity |]. apply round_unit, sample_range.
  - eexists _, _. split.
    { do 2 rewrite lookup_insert_ne by done. rewrite lookup_insert_eq.
      unfold Py.get. by rewrite process_mean_entropy. }
    split; [reflexivity |]. by apply round_unit, mean_range.
  - eexists. split.
    { do 5 rewrite lookup_insert_ne by done. by rewrite lookup_insert_eq. }
    unfold process. cbn [fst snd]. destruct (bool_decide _); split; evaluate.
  - do 4 rewrite lookup_insert_ne by done. rewrite lookup_insert_eq.
    unfold Py.get, process. cbn [fst snd].
    do 3 rewrite lookup_insert_ne by done. rewrite lookup_insert_eq. by eexists.
  - do 3 rewrite lookup_insert_ne by done. rewrite lookup_insert_eq.
    unfold Py.get_or, process. cbn [fst snd].
    do 2 rewrite lookup_insert_ne by done. rewrite lookup_insert_eq.
    by eexists.
Qed.

Lemma gate_output_passes_verifier_witness :
  let out := process 0.30 init "aab" in
  Forall (fun x => (0 <= x <= 1)%Q) (entropy_window (fst out))
  ∧ violations
      (Invariants.verify
         (Some (Instrumentation.record "2026-01-01T00:00:00+00:00"
                  (fst (snd out)) (snd (snd out)) [])))
    = violations (Invariants.verify (Some [])).
Proof.
  apply (gate_output_passes_verifier 0.30 init "aab"
           "2026-01-01T00:00:00+00:00" []).
  constructor.
Defined.

End GateFacts.

(** ** From the gate to the actuation decision *)

Section ConfidenceFacts.
Import IntelligenceGate Confidence ActuationThreshold Spec.

Lemma clamp_unit (x : Q) :
  (0 <= Float.py_max 0.0 (Float.py_min x 1.0) <= 1)%Q.
Proof.
  unfold Float.py_max, Float.py_min.
  destruct (ltb_reflect 1.0 x);
    match goal with |- context [Float.ltb ?a ?b] =>
      destruct (ltb_reflect a b) end; lra.
Qed.

Lemma mean_entropy_numeric (g : option (gmap string pyval)) :
  well_formed_snapshot g → ∃ e, snapshot_entry_is "mean_entropy" g e.
Proof.
  intros Hwf. destruct g as [m|]; cbn [snapshot_entry_is]; [| by eexists].
  destruct (m !! "mean_entropy") as [v|] eqn:Ev; [| by eexists].
  destruct (Hwf m eq_refl) as [Hn _].
  destruct (Hn v Ev) as [x Hx]. by exists x.
Qed.

(** On a well-formed snapshot [compute_confidence] returns a value in
    [0, 1] that is a whole number of thousandths. *)
Theorem compute_confidence_range (g i : option (gmap string pyval)) :
  well_formed_snapshot g →
  ∃ c, compute_confidence g i = Some c
       ∧ (0 <= c <= 1)%Q
       ∧ ∃ z : Z, c = Qmake z 1000.
Proof.
  intros Hwf. destruct (mean_entropy_numeric g Hwf) as [e He].
  destruct (compute_confidence_shape g i e Hwf He)
    as (stab & clean & _ & _ & ->).
  eexists. split; [reflexivity |].
  split; [apply round_unit, clamp_unit |].
  eexists. reflexivity.
Qed.

Lemma compute_confidence_range_witness :
  ∃ c, compute_confidence
         (Some (fst (snd (process 0.30 init "aab"))))
         (Some {[ "status" := PyStr "CLEAN" ]}) = Some c
       ∧ (0 <= c <= 1)%Q
       ∧ ∃ z : Z, c = Qmake z 1000.
Proof.
  apply (compute_confidence_range
           (Some (fst (snd (process 0.30 init "aab"))))
           (Some {[ "status" := PyStr "CLEAN" ]})).
  intros m [= <-]. split; intros v Hv; vm_compute in Hv;
    injection Hv as <-; eexists; reflexivity.
Defined.

Lemma process_constraints (emax : Q) (g : gate) (text : string) :
  fst (snd (process emax g text)) !! "active_constraints"
  = Some (PyList (PyStr <$> elements (active_constraints
                                        (fst (process emax g text))))).
Proof.
  unfold process. cbn [fst snd active_constraints].
  do 2 rewrite lookup_insert_ne by done. by rewrite lookup_insert_eq.
Qed.

(** The stabilize constraint, the dampening factor and the actuation
    decision move together.  [process] raises "stabilize" exactly when the
    mean of its window exceeds the ceiling, and the dampening is 0.7 then
    and 1.0 otherwise.  With a ceiling of at least 0.2 (the default is
    0.30), the confidence computed from a stabilized snapshot is at most
    0.72, so [may_act] at the default threshold denies, whatever the
    invariant status and the policy. *)
Theorem stabilize_denies (emax : Q) (g : gate) (text : string)
  (i : option (gmap string pyval)) (inv : gmap string pyval)
  (policy : option (gmap string pyval)) :
  (0.2 <= emax)%Q →
  let out := process emax g text in
  let g' := fst out in
  ("stabilize" ∈ active_constraints g'
   ↔ (emax < mean (entropy_window g'))%Q)
  ∧ ("stabilize" ∉ active_constraints g' → snd (snd out) = 1.0%Q)
  ∧ ("stabilize" ∈ active_constraints g' →
     snd (snd out) = 0.7%Q
     ∧ ∃ c, compute_confidence (Some (fst (snd out))) i = Some c
            ∧ (c <= 0.72)%Q
            ∧ decision (may_act c inv policy DEFAULT_CONFIDENCE_THRESHOLD)
              = "DENY").
Proof.
  intros Hemax out g'.
  pose proof (process_constraints emax g text) as Hcons.
  pose proof (process_mean_entropy emax g text) as Hmean.
  fold out in Hcons, Hmean. fold g' in Hcons, Hmean.
  assert (Hact : active_constraints g'
                 = if Float.ltb emax (mean (entropy_window g'))
                   then {[ "stabilize" ]} else ∅) by reflexivity.
  assert (Hdamp : snd (snd out)
                  = if bool_decide ("stabilize" ∈ active_constraints g')
                    then 0.7%Q else 1.0%Q) by reflexivity.
  assert (Hiff : "stabilize" ∈ active_constraints g'
                 ↔ (emax < mean (entropy_window g'))%Q).
  { rewrite Hact. destruct (ltb_reflect emax (mean (entropy_window g')));
      set_solver. }
  split; [done |]. split.
  { intros Hn. by rewrite Hdamp, bool_decide_eq_false_2. }
  intros Hin. split; [by rewrite Hdamp, bool_decide_eq_true_2 |].
  assert (Hel : elements (active_constraints g') = ["stabilize"]).
  { rewrite Hact. apply Hiff, ltb_lt in Hin. rewrite Hin.
    apply elements_singleton. }
  rewrite Hel in Hcons. cbn [fmap list_fmap] in Hcons.
  set (e := Float.py_round (mean (entropy_window g')) 4) in *.
  assert (Hwf : well_formed_snapshot (Some (fst (snd out)))).
  { intros m Hm. apply (inj Some) in Hm. subst m. split; intros v Hv.
    - rewrite Hmean in Hv. injection Hv as <-. by eexists.
    - rewrite Hcons in Hv. injection Hv as <-. by eexists. }
  assert (He : snapshot_entry_is "mean_entropy" (Some (fst (snd out))) e)
    by (cbn [snapshot_entry_is]; by rewrite Hmean).
  destruct (compute_confidence_shape _ i e Hwf He)
    as (stab & clean & Hstab & _ & ->).
  assert (stab = true) as ->.
  { apply Hstab. eexists _, _. split; [reflexivity |]. split; [exact Hcons |].
    by left. }
  assert (He02 : (0.2 <= e)%Q).
  { apply Hiff in Hin.
    assert (H02 : (Float.py_round 0.2 4 == 0.2)%Q) by reflexivity.
    rewrite <- H02. apply py_round_mono. lra. }
  eexists. split; [reflexivity |].
  match goal with |- (?c <= _)%Q ∧ _ => assert (Hc : (c <= 0.72)%Q) end.
  { assert (H72 : (Float.py_round 0.72 3 == 0.72)%Q) by reflexivity.
    rewrite <- H72. apply py_round_mono.
    assert (Hm : (0.2 <= Float.py_min e 1.0)%Q)
      by (unfold Float.py_min; destruct (ltb_reflect 1.0 e); lra).
    set (m := Float.py_min e 1.0) in *.
    set (y := if negb clean then 0.0%Q else (1.0 - m * 0.4 - 0.2)%Q).
    assert (Hy : (y <= 0.72)%Q) by (subst y; destruct clean; cbn [negb]; lra).
    clearbody y. unfold Float.py_max, Float.py_min.
    destruct (ltb_reflect 1.0 y);
      match goal with |- context [Float.ltb ?a ?b] =>
        destruct (ltb_reflect a b) end; lra. }
  split; [exact Hc |].
  unfold may_act, DEFAULT_CONFIDENCE_THRESHOLD.
  destruct (negb (Py.eq_str (Py.get inv "status") "CLEAN")); [reflexivity |].
  match goal with |- context [Float.ltb ?a ?b] =>
    destruct (ltb_reflect a b) end; [reflexivity | lra].
Qed.

Lemma stabilize_denies_witness :
  "stabilize" ∈ active_constraints (fst (process 0.30 init "aab"))
  ↔ (0.30 < mean (entropy_window (fst (process 0.30 init "aab"))))%Q.
Proof.
  apply (stabilize_denies 0.30 init "aab" None
           {[ "status" := PyStr "CLEAN" ]} None).
  evaluate.
Defined.

End ConfidenceFacts.

(** ** The session state across updates and checkpoints *)

Section LayerFacts.
Import IntelligenceLayer Spec.

Lemma clamp01_range (x : Q) : (0 <= IntelligenceLayer.clamp01 x <= 1)%Q.
Proof.
  unfold IntelligenceLayer.clamp01, Float.py_max, Float.py_min.
  destruct (ltb_reflect x 1.0);
    match goal with |- context [Float.ltb ?a ?b] =>
      destruct (ltb_reflect a b) end; lra.
Qed.

(** [clamp01 x] is below any bound that is not negative and that [x] is
    below. *)
Lemma clamp01_le (x y : Q) :
  (x <= y)%Q → (0 <= y)%Q → (IntelligenceLayer.clamp01 x <= y)%Q.
Proof.
  intros Hxy Hy. unfold IntelligenceLayer.clamp01, Float.py_max, Float.py_min.
  destruct (ltb_reflect x 1.0);
    match goal with |- context [Float.ltb ?a ?b] =>
      destruct (ltb_reflect a b) end; lra.
Qed.

Lemma clamp01_lt (x y : Q) :
  (x < y)%Q → (0 < y)%Q → (IntelligenceLayer.clamp01 x < y)%Q.
Proof.
  intros Hxy Hy. unfold IntelligenceLayer.clamp01, Float.py_max, Float.py_min.
  destruct (ltb_reflect x 1.0);
    match goal with |- context [Float.ltb ?a ?b] =>
      destruct (ltb_reflect a b) end; lra.
Qed.

Lemma estimate_recursion_range (text : string) :
  (0 <= estimate_recursion text <= 1)%Q.
Proof. apply clamp01_range. Qed.

Lemma estimate_coherence_range (tokens : gset string) (text : string) :
  (0 <= fst (estimate_coherence tokens text) <= 1)%Q.
Proof.
  unfold estimate_coherence.
  destruct (negb (Py.truthy (PyStr (Str.strip text)))); cbn [fst].
  - split; evaluate.
  - apply clamp01_range.
Qed.

Lemma length_last_n {A} (n : nat) (l : list A) :
  length (last_n n l) = Nat.min n (length l).
Proof. unfold last_n. rewrite length_drop. lia. Qed.

Lemma last_n_snoc {A} (n : nat) (l : list A) (x : A) :
  (0 < n)%nat →
  last_n n (l ++ [x]) = drop (length l + 1 - n) l ++ [x].
Proof.
  intros Hn. unfold last_n. rewrite length_app. cbn [length].
  apply drop_app_le. lia.
Qed.

Lemma slope_2_range (h : list Q) :
  Forall (fun x => (0 <= x <= 1)%Q) h →
  (-(1#2) <= slope_2 h <= 1#2)%Q.
Proof.
  intros H. apply Forall_rev in H. unfold slope_2.
  destruct (rev h) as [|k1 [|k2 [|k3 r]]]; try (split; evaluate).
  inversion H as [|? ? [? ?] H']; subst. inversion H' as [|? ? _ H'']; subst.
  inversion H'' as [|? ? [? ?] _]; subst.
  unfold Qdiv. change (/ 2.0)%Q with (10 # 20). split; lra.
Qed.

(** What an update leaves, from any state: [K_t] and [R_t] in [0, 1],
    the turn counter one higher, each history one longer but never longer
    than 6 and ending with the current value; and when the old history
    held values in [0, 1] so does the new one, with a slope within one
    half. *)
Theorem update_state_bounds (tokens : gset string) (s : ILState)
  (text : string) :
  let s' := updated tokens s text in
  (0 <= K_t s' <= 1)%Q ∧ (0 <= R_t s' <= 1)%Q
  ∧ turn_index s' = turn_index s + 1
  ∧ length (K_hist s') = Nat.min 6 (S (length (K_hist s)))
  ∧ length (R_hist s') = Nat.min 6 (S (length (R_hist s)))
  ∧ last (K_hist s') = Some (K_t s')
  ∧ last (R_hist s') = Some (R_t s')
  ∧ (Forall (fun x => (0 <= x <= 1)%Q) (K_hist s) →
     Forall (fun x => (0 <= x <= 1)%Q) (K_hist s')
     ∧ (-(1#2) <= Kt_slope_2 s' <= 1#2)%Q).
Proof.
  pose proof (estimate_coherence_range tokens text) as HK.
  pose proof (estimate_recursion_range text) as HR.
  unfold updated, update_state.
  destruct (estimate_coherence tokens text) as [K tk]. cbn [fst] in HK.
  cbn [fst snd K_t R_t turn_index K_hist R_hist Kt_slope_2].
  rewrite !length_last_n, !length_app. cbn [length].
  rewrite !last_n_snoc, !last_snoc by lia.
  repeat split; try apply HK; try apply HR; try lia.
  - apply Forall_app. split; [by apply Forall_drop | by apply Forall_singleton].
  - apply slope_2_range, Forall_app.
    split; [by apply Forall_drop | by apply Forall_singleton].
  - apply slope_2_range, Forall_app.
    split; [by apply Forall_drop | by apply Forall_singleton].
Qed.

Lemma update_state_bounds_witness :
  let s' := updated ∅ (example_state [0.5; 0.4]%Q 0.4 0.1 0.0 false)
              "a new turn." in
  Forall (fun x => (0 <= x <= 1)%Q) (K_hist s')
  ∧ (-(1#2) <= Kt_slope_2 s' <= 1#2)%Q.
Proof.
  pose proof (update_state_bounds ∅
                (example_state [0.5; 0.4]%Q 0.4 0.1 0.0 false) "a new turn.")
    as H.
  cbn zeta in H. destruct H as (_ & _ & _ & _ & _ & _ & _ & H). apply H.
  unfold example_state. cbn [K_hist]. repeat constructor; lra.
Defined.

(** With fewer than two earlier entries there is no two-step slope: the
    update stores 0.0 and the history grows by one.  So two updates of a
    fresh state leave a history of length 2 and a slope of 0. *)
Theorem update_state_short_history (tokens : gset string) (s : ILState)
  (text : string) :
  (length (K_hist s) < 2)%nat →
  Kt_slope_2 (updated tokens s text) = 0.0%Q
  ∧ length (K_hist (updated tokens s text)) = S (length (K_hist s)).
Proof.
  intros Hlen. unfold updated, update_state.
  destruct (estimate_coherence tokens text) as [K tk].
  cbn [fst snd Kt_slope_2 K_hist].
  destruct (K_hist s) as [|a [|b h]]; [by split .. | cbn in Hlen; lia].
Qed.

Lemma update_state_short_history_witness :
  let s1 := updated ∅ ILState_default "same words." in
  let tokens := fst (fst (update_state ∅ ILState_default "same words.")) in
  Kt_slope_2 (updated tokens s1 "same words.") = 0.0%Q
  ∧ length (K_hist (updated tokens s1 "same words.")) = S (length (K_hist s1)).
Proof.
  apply (update_state_short_history
           (fst (fst (update_state ∅ ILState_default "same words.")))
           (updated ∅ ILState_default "same words.") "same words.").
  vm_compute. lia.
Defined.

(** A turn that says "again", "repeat" or "as i said" at most twice in
    all has a recursion pressure of at most 0.8, and both triggers need
    more: after its update [should_segment] is false, in or out of
    cooldown, whatever the history. *)
Theorem quiet_turn_never_segments (tokens : gset string) (s : ILState)
  (text : string) :
  Str.count (Str.lower text) "again" + Str.count (Str.lower text) "repeat"
  + Str.count (Str.lower text) "as i said" ≤ 2 →
  (R_t (updated tokens s text) <= 0.8)%Q
  ∧ should_segment (updated tokens s text) = false.
Proof.
  intros Hcnt.
  assert (HR : (estimate_recursion text <= 0.8)%Q).
  { unfold estimate_recursion. cbn [map fold_left].
    set (n := 0 + _ + _ + _).
    assert (Hn : (inject_Z n <= 2)%Q).
    { change 2%Q with (inject_Z 2). rewrite <- Zle_Qle. subst n. lia. }
    apply clamp01_le; [| lra].
    destruct (ReRepeat.search (Str.lower text)); lra. }
  unfold updated, update_state.
  destruct (estimate_coherence tokens text) as [K tk].
  cbn [fst snd R_t]. split; [done |].
  unfold should_segment, acceleration_trigger, saturation_trigger.
  cbn [R_t cooldown_active Kt_slope_2 K_t K_hist].
  assert (Float.ltb 0.80 (estimate_recursion text) = false) as ->
    by (apply ltb_ge; lra).
  rewrite andb_false_r. cbn [andb orb].
  match goal with |- (if ?c then false else false) = false =>
    by destruct c end.
Qed.

Lemma quiet_turn_never_segments_witness :
  (R_t (updated ∅ (example_state [0.1; 0.1; 0.1]%Q 0.1 0.9 (-0.4) false)
          "go go go, again and again") <= 0.8)%Q
  ∧ should_segment
      (updated ∅ (example_state [0.1; 0.1; 0.1]%Q 0.1 0.9 (-0.4) false)
         "go go go, again and again") = false.
Proof.
  apply (quiet_turn_never_segments ∅
           (example_state [0.1; 0.1; 0.1]%Q 0.1 0.9 (-0.4) false)
           "go go go, again and again").
  vm_compute. discriminate.
Defined.

End LayerFacts.

(** ** Checkpoints and the cooldown that follows them *)

Section CheckpointFacts.
Import IntelligenceLayer Spec.

(** A checkpoint holds the cooldown for at least two turns: the state
    [segment_now] leaves is in cooldown, it is still in cooldown after
    the next update whatever the text, and the update after that one
    ends the cooldown exactly when [cooldown_min_turns <= 2] and the
    coherence of that turn reaches [cooldown_exit_K]. *)
Theorem checkpoint_holds_two_turns (s : ILState) (buffer : list string)
  (tokens1 tokens2 : gset string) (text1 text2 : string) :
  let s0 := fst (segment_now s buffer) in
  let s1 := updated tokens1 s0 text1 in
  let s2 := updated tokens2 s1 text2 in
  cooldown_active s0 = true
  ∧ cooldown_active s1 = true
  ∧ (cooldown_active s2 = false
     ↔ cooldown_min_turns s ≤ 2 ∧ (cooldown_exit_K s <= K_t s2)%Q).
Proof.
  unfold updated, update_state, segment_now.
  destruct (estimate_coherence tokens1 text1) as [K1 tk1].
  destruct (estimate_coherence tokens2 text2) as [K2 tk2].
  cbn [fst snd cooldown_active cooldown_turns_left cooldown_min_turns
       turn_index last_segment_turn cooldown_exit_K K_t].
  change (2 - 1 <=? 0) with false. rewrite andb_false_r. cbn [andb].
  change (2 - 1 - 1 <=? 0) with true. rewrite andb_true_r.
  split; [done |]. split; [done |].
  destruct (Z.leb_spec (cooldown_min_turns s)
              (turn_index s + 1 + 1 - turn_index s));
    destruct (Float.leb (cooldown_exit_K s) K2) eqn:E; cbn [andb];
    try (apply leb_le in E);
    try (assert (¬ (cooldown_exit_K s <= K2)%Q)
           by (intros H'; apply leb_le in H'; congruence));
    split; intros; try discriminate; try reflexivity; try tauto;
    try (split; [lia | done]); try lia.
Qed.

Lemma coherence_of_short_or_open_text (tokens : gset string) (text : string) :
  (String.length text < 380)%nat
  ∨ Str.endswith (Str.strip text) ["."; "!"; "?"] = false →
  (fst (estimate_coherence tokens text) < 0.9)%Q.
Proof.
  intros Hcase. unfold estimate_coherence.
  destruct (negb (Py.truthy (PyStr (Str.strip text)))); cbn [fst];
    [evaluate |].
  set (lf := IntelligenceLayer.clamp01
               (inject_Z (Z.of_nat (String.length text) - 80) / 400.0)).
  set (soft := (IntelligenceLayer.clamp01 _ * 0.15)%Q).
  assert (Hsoft : (0 <= soft)%Q).
  { subst soft. match goal with |- (0 <= ?c * _)%Q =>
      pose proof (clamp01_range
        (inject_Z (Z.of_nat (size (list_to_set (Str.split (Str.lower text))
                                   ∩ tokens))) / 20.0)) end. lra. }
  assert (Hlf : (0 <= lf <= 1)%Q) by apply clamp01_range.
  clearbody soft.
  apply clamp01_lt; [| lra].
  destruct Hcase as [Hlen|Hopen].
  - assert (Hlf' : (lf < 0.75)%Q).
    { subst lf. apply clamp01_lt; [| lra].
      assert (Hz : (inject_Z (Z.of_nat (String.length text) - 80)
                    <= inject_Z 299)%Q) by (rewrite <- Zle_Qle; lia).
      unfold Qdiv. change (/ 400.0)%Q with (10 # 4000).
      change (inject_Z 299) with 299%Q in Hz. lra. }
    clearbody lf.
    destruct (Str.endswith _ _), (ReRepeat.search _); lra.
  - rewrite Hopen. clearbody lf. destruct (ReRepeat.search _); lra.
Qed.

(** With the default [cooldown_exit_K] of 0.90 (or any higher one) a turn
    ends the cooldown only if its text has at least 380 characters and
    ends, after stripping, in ".", "!" or "?": anything shorter or
    unterminated scores below 0.9. *)
Theorem cooldown_exit_needs_long_text (tokens : gset string) (s : ILState)
  (text : string) :
  cooldown_active s = true → (0.90 <= cooldown_exit_K s)%Q →
  cooldown_active (updated tokens s text) = false →
  (380 ≤ String.length text)%nat
  ∧ Str.endswith (Str.strip text) ["."; "!"; "?"] = true.
Proof.
  intros Hc Hexit.
  pose proof (coherence_of_short_or_open_text tokens text) as HK.
  unfold updated, update_state.
  destruct (estimate_coherence tokens text) as [K tk]. cbn [fst] in HK.
  cbn [fst snd cooldown_active]. rewrite Hc.
  destruct (Float.leb (cooldown_exit_K s) K) eqn:E;
    [| by rewrite andb_false_r].
  apply leb_le in E. intros _.
  destruct (Nat.lt_ge_cases (String.length text) 380) as [Hlt|Hge].
  { specialize (HK (or_introl Hlt)). lra. }
  split; [done |].
  destruct (Str.endswith (Str.strip text) ["."; "!"; "?"]) eqn:Eend; [done |].
  specialize (HK (or_intror eq_refl)). lra.
Qed.

Lemma cooldown_exit_needs_long_text_witness :
  let text := Str.of_chars (repeat "a"%char 400 ++ ["."%char]) in
  (380 ≤ String.length text)%nat
  ∧ Str.endswith (Str.strip text) ["."; "!"; "?"] = true.
Proof.
  apply (cooldown_exit_needs_long_text ∅
           (updated ∅ (fst (segment_now (state_at_turn 5) [])) "a turn")
           (Str.of_chars (repeat "a"%char 400 ++ ["."%char])));
    evaluate.
Defined.

Lemma omap_filter_strip (lines : list string) :
  omap (fun line =>
          if Str.startswith (Str.strip line) ["-"; "#"]
          then Some (PyStr (Str.strip line)) else None) lines
  = PyStr <$> filter (fun k => Str.startswith k ["-"; "#"] = true)
                (Str.strip <$> lines).
Proof.
  induction lines as [|l lines IH]; [reflexivity |].
  cbn [omap list_omap fmap list_fmap]. rewrite filter_cons.
  fold (omap (fun line =>
          if Str.startswith (Str.strip line) ["-"; "#"]
          then Some (PyStr (Str.strip line)) else None) lines).
  rewrite IH.
  destruct (Str.startswith (Str.strip l) ["-"; "#"]) eqn:E.
  - by rewrite decide_True.
  - by rewrite decide_False by congruence.
Qed.

(** [extract_invariants] keeps, in order, the stripped lines among the
    last 8 of the buffer that start with "-" or "#".  There are never more
    than 8 of them, so the cap at 10 never cuts anything. *)
Theorem extract_invariants_constraints (buffer : list string) :
  let keep := filter (fun k => Str.startswith k ["-"; "#"] = true)
                (Str.strip <$> last_n 8 buffer) in
  extract_invariants buffer = {[ "constraints" := PyList (PyStr <$> keep) ]}
  ∧ (length keep ≤ 8)%nat
  ∧ ∀ k, k ∈ keep
         ↔ Str.startswith k ["-"; "#"] = true
           ∧ ∃ line, line ∈ last_n 8 buffer ∧ k = Str.strip line.
Proof.
  cbn zeta. unfold extract_invariants. rewrite omap_filter_strip.
  set (keep := filter _ _).
  assert (Hlen : (length keep ≤ 8)%nat).
  { subst keep. etrans; [apply length_filter |].
    rewrite length_fmap, length_last_n. lia. }
  split; [| split; [done |]].
  - do 2 f_equal. apply take_ge. rewrite length_fmap. lia.
  - intros k. subst keep. rewrite list_elem_of_filter, list_elem_of_fmap.
    split; intros [H1 (line & H2 & H3)]; (split; [done |]); by exists line.
Qed.

End CheckpointFacts.

(** ** The shape of the trace digest *)

Section DigestFacts.
Import IntelligenceLayer Spec.

Lemma chars_substring (n : nat) (s : string) :
  Str.chars (substring 0 n s) = take n (Str.chars s).
Proof.
  revert s. induction n as [|n IH]; intros [|c s]; cbn; try reflexivity.
  f_equal. apply IH.
Qed.

Lemma round_length (st : list Z) (kw : Z * Z) :
  length (SHA256.round st kw) = length st.
Proof.
  unfold SHA256.round.
  destruct st as [|a [|b [|c [|d [|e [|f [|g0 [|h [|x st]]]]]]]]];
    reflexivity.
Qed.

Lemma fold_round_length (kws : list (Z * Z)) (st : list Z) :
  length (fold_left SHA256.round kws st) = length st.
Proof.
  revert st. induction kws as [|kw kws IH]; intros st; [reflexivity |].
  cbn [fold_left]. by rewrite IH, round_length.
Qed.

Lemma compress_length (H block : list Z) :
  length (SHA256.compress H block) = length H.
Proof.
  unfold SHA256.compress. rewrite length_zip_with, fold_round_length. lia.
Qed.

Lemma digest_words_length (msg : list Z) :
  length (SHA256.digest_words msg) = 8%nat.
Proof.
  unfold SHA256.digest_words.
  assert (H : ∀ bs H0, length (fold_left SHA256.compress bs H0) = length H0).
  { induction bs as [|b bs IH]; intros H0; [reflexivity |].
    cbn [fold_left]. by rewrite IH, compress_length. }
  rewrite H. evaluate.
Qed.

Lemma hex_char_digit (x : Z) :
  In (SHA256.hex_char (Z.land x 15)) (Str.chars "0123456789abcdef").
Proof.
  change 15 with (Z.ones 4). rewrite Z.land_ones by lia.
  pose proof (Z.mod_pos_bound x (2 ^ 4) ltac:(lia)) as Hb.
  set (d := x mod 2 ^ 4) in *. change (2 ^ 4) with 16 in Hb.
  assert (Hd : d = 0 ∨ d = 1 ∨ d = 2 ∨ d = 3 ∨ d = 4 ∨ d = 5 ∨ d = 6
               ∨ d = 7 ∨ d = 8 ∨ d = 9 ∨ d = 10 ∨ d = 11 ∨ d = 12
               ∨ d = 13 ∨ d = 14 ∨ d = 15) by lia.
  clearbody d.
  repeat (destruct Hd as [->|Hd]; [cbn; tauto |]). subst d. cbn. tauto.
Qed.

Lemma hexdigest_chars (msg : list Z) :
  length (Str.chars (SHA256.hexdigest msg)) = 64%nat
  ∧ Forall (fun c => In c (Str.chars "0123456789abcdef"))
      (Str.chars (SHA256.hexdigest msg)).
Proof.
  unfold SHA256.hexdigest. rewrite chars_of_chars.
  pose proof (digest_words_length msg) as Hlen.
  set (ws := SHA256.digest_words msg) in *. clearbody ws.
  assert (Hall : ∀ l : list Z,
    length (flat_map SHA256.hex_word l) = (8 * length l)%nat
    ∧ Forall (fun c => In c (Str.chars "0123456789abcdef"))
        (flat_map SHA256.hex_word l)).
  { induction l as [|w l [IH1 IH2]]; [by split |].
    cbn [flat_map]. rewrite length_app, IH1. split; [cbn; lia |].
    apply Forall_app. split; [| done].
    unfold SHA256.hex_word. cbn [map].
    repeat (apply Forall_cons; split; [apply hex_char_digit |]).
    constructor. }
  destruct (Hall ws) as [H1 H2]. rewrite H1, Hlen. by split.
Qed.

(** The [trace_hash] an update stores is always 16 characters long, each
    a lower-case hexadecimal digit. *)
Theorem trace_hash_format (tokens : gset string) (s : ILState)
  (text : string) :
  String.length (trace_hash (updated tokens s text)) = 16%nat
  ∧ Forall (fun c => In c (Str.chars "0123456789abcdef"))
      (Str.chars (trace_hash (updated tokens s text))).
Proof.
  assert (H : ∀ K R t,
    String.length (trace_digest K R t) = 16%nat
    ∧ Forall (fun c => In c (Str.chars "0123456789abcdef"))
        (Str.chars (trace_digest K R t))).
  { intros K R t. unfold trace_digest.
    destruct (hexdigest_chars (Json.encode (Json.dumps_trace K R t)))
      as [Hlen Hhex].
    rewrite <- length_chars, chars_substring, length_take, Hlen.
    split; [reflexivity | by apply Forall_take]. }
  unfold updated, update_state.
  destruct (estimate_coherence tokens text) as [K tk].
  cbn [fst snd trace_hash]. apply H.
Qed.

End DigestFacts.

(** ** Readers of the instrumentation log *)

Section LogReaders.
Import Invariants Spec.

Lemma omap_id_some {A} (l : list A) : omap id (Some <$> l) = l.
Proof. induction l as [|x l IH]; [reflexivity |]. cbn. by f_equal. Qed.

Lemma length_omap_id {A} (l : list (option A)) :
  (length (omap id l) ≤ length l)%nat.
Proof.
  induction l as [|[x|] l IH]; cbn [omap list_omap id length]; [lia | |];
    fold (omap id l); cbn [length]; lia.
Qed.

Lemma flat_map_nil {A B} (f : A → list B) (l : list A) :
  flat_map f l = [] ↔ ∀ x, In x l → f x = [].
Proof.
  induction l as [|x l IH]; cbn [flat_map In]; [by split |].
  split.
  - intros H. apply app_eq_nil in H as [H1 H2]. intros y [<-|Hy]; [done |].
    by apply IH.
  - intros H. rewrite (H x) by by left. apply IH. intros y Hy. apply H.
    by right.
Qed.

Lemma check_event_nil (i : nat) (e : pyval) :
  check_event i e = []
  ↔ ∀ name rule, In (name, rule) INVARIANTS → rule e = Some true.
Proof.
  unfold check_event. rewrite flat_map_nil. split.
  - intros H name rule Hin. specialize (H (name, rule) Hin). cbn in H.
    by destruct (rule e) as [[|]|].
  - intros H [name rule] Hin. by rewrite (H name rule Hin).
Qed.

(** The loops of [verify] find nothing exactly when every rule holds on
    every event. *)
Lemma failures_nil (events : list pyval) :
  flat_map (fun '(i, e) => check_event i e)
    (zip (seq 0 (length events)) events) = []
  ↔ ∀ e, e ∈ events →
      ∀ name rule, In (name, rule) INVARIANTS → rule e = Some true.
Proof.
  rewrite flat_map_nil. split.
  - intros H e He. apply list_elem_of_lookup in He as [i Hi].
    apply check_event_nil with (i := i).
    apply (H (i, e)). by apply in_zip_seq.
  - intros H [i e] Hin. apply in_zip_seq in Hin.
    apply check_event_nil, H. by eapply list_elem_of_lookup_2.
Qed.

Lemma verify_clean_events (log : option (list Instrumentation.log_line))
  (n k : nat) :
  verify log = Clean n k
  ↔ n = length (load_events log) ∧ k = 5%nat ∧ load_events log ≠ []
    ∧ ∀ e, e ∈ load_events log →
        ∀ name rule, In (name, rule) INVARIANTS → rule e = Some true.
Proof.
  unfold verify. pose proof (failures_nil (load_events log)) as Hf.
  destruct (load_events log) as [|e events] eqn:E.
  { cbn [length Nat.eqb]. split; [discriminate | by intros (_ & _ & ? & _)]. }
  cbn [length Nat.eqb] in *.
  match goal with |- context [flat_map ?f ?l] =>
    set (fs := flat_map f l) in * end.
  destruct fs as [|x fs]; cbn [length Nat.eqb negb].
  - split.
    + intros [= <- <-]. repeat split; try done. by apply Hf.
    + intros (-> & -> & _ & _). reflexivity.
  - split; [discriminate |]. intros (_ & _ & _ & H).
    apply Hf in H. discriminate.
Qed.

(** [verify] reports CLEAN only for a log with at least one parsed event
    on which every rule holds on every event, and then it counts those
    events and the five rules.  Lines that do not parse are skipped
    without trace: dropping them from the file changes nothing, so the
    index in a violation is a position among the parsed events, not a
    line number. *)
Theorem verify_clean_iff (log : option (list Instrumentation.log_line))
  (n k : nat) :
  (verify log = Clean n k
   ↔ n = length (load_events log) ∧ k = 5%nat ∧ load_events log ≠ []
     ∧ ∀ e, e ∈ load_events log →
         ∀ name rule, In (name, rule) INVARIANTS → rule e = Some true)
  ∧ verify log = verify (Some (Some <$> load_events log)).
Proof.
  split; [apply verify_clean_events |].
  unfold verify. cbn [load_events]. by rewrite omap_id_some.
Qed.

Lemma sum_field_total (key : string) (events : list pyval) (acc : Q) :
  (∀ e, e ∈ events →
     ∃ d v x, e = PyDict d ∧ d !! key = Some v ∧ Py.as_number v = Some x) →
  is_Some (Policy.sum_field key events acc).
Proof.
  revert acc. induction events as [|e events IH]; intros acc H;
    cbn [Policy.sum_field]; [by eexists |].
  destruct (H e) as (d & v & x & -> & Hv & Hx); [by left |].
  cbn [subscript]. rewrite Hv. cbn [mbind option_bind]. rewrite Hx.
  cbn [mbind option_bind]. apply IH. intros e' He'. apply H. by right.
Qed.

Lemma count_stabilized_total (events : list pyval) (acc : Z) :
  (∀ e, e ∈ events →
     ∃ d l, e = PyDict d ∧ d !! "active_constraints" = Some (PyList l)) →
  is_Some (Policy.count_stabilized events acc).
Proof.
  revert acc. induction events as [|e events IH]; intros acc H;
    cbn [Policy.count_stabilized]; [by eexists |].
  destruct (H e) as (d & l & -> & Hl); [by left |].
  unfold Py.get_or. rewrite Hl. cbn [default from_option id Confidence.contains_str].
  apply IH. intros e' He'. apply H. by right.
Qed.

(** A log that [verify] finds CLEAN can be analysed: [policy.analyze]
    does not raise on it and reports as many observations as [verify]
    checked events. *)
Theorem clean_log_analyzable (log : option (list Instrumentation.log_line))
  (n k : nat) :
  verify log = Clean n k →
  ∃ report, Policy.analyze log = Some report
            ∧ report !! "observations" = Some (PyInt (Z.of_nat n)).
Proof.
  intros Hclean.
  apply verify_clean_events in Hclean as (-> & _ & Hne & Hall).
  unfold Policy.analyze.
  destruct (Nat.eqb_spec (length (load_events log)) 0) as [E|_];
    [by destruct (load_events log) |].
  assert (Hnum : ∀ key name,
    In (name, fun e => subscript e key ≫= between_incl 0.0 1.0) INVARIANTS
    ∨ In (name, fun e => subscript e key ≫= between_excl_incl 0.0 1.0)
         INVARIANTS →
    ∀ e, e ∈ load_events log →
      ∃ d v x, e = PyDict d ∧ d !! key = Some v ∧ Py.as_number v = Some x).
  { intros key name Hin e He.
    destruct Hin as [Hin|Hin]; specialize (Hall e He _ _ Hin);
      cbn beta in Hall;
      destruct e as [| | | | | |d]; try discriminate;
      cbn [subscript] in Hall;
      destruct (d !! key) as [v|] eqn:Ev; try discriminate;
      cbn [mbind option_bind] in Hall;
      unfold between_incl, between_excl_incl in Hall;
      destruct (Py.as_number v) as [x|] eqn:Ex; try discriminate;
      by exists d, v, x. }
  destruct (sum_field_total "entropy" (load_events log) 0) as [se ->].
  { apply (Hnum "entropy" "entropy_bound"). left. cbn. tauto. }
  destruct (sum_field_total "dampening" (load_events log) 0) as [sd ->].
  { apply (Hnum "dampening" "dampening_range"). right. cbn. tauto. }
  destruct (count_stabilized_total (load_events log) 0) as [st ->].
  { intros e He.
    assert (Hin : In ("constraints_explicit",
                      fun e => get_is_list e "active_constraints") INVARIANTS)
      by (cbn; tauto).
    specialize (Hall e He _ _ Hin). cbn beta in Hall.
    destruct e as [| | | | | |d]; try discriminate.
    cbn [get_is_list] in Hall. unfold Py.get in Hall.
    destruct (d !! "active_constraints") as [[| | | | |l|]|] eqn:El;
      try discriminate. by exists d, l. }
  cbn [mbind option_bind]. eexists. split; [reflexivity |].
  by rewrite lookup_insert_eq.
Qed.

Lemma clean_log_analyzable_witness :
  ∃ report,
    Policy.analyze
      (Some (Instrumentation.record "2026-01-01T00:00:00+00:00"
               (fst (snd (IntelligenceGate.process 0.30
                            IntelligenceGate.init "aab"))) 0.7 []))
    = Some report
    ∧ report !! "observations" = Some (PyInt (Z.of_nat 1)).
Proof.
  apply (clean_log_analyzable
           (Some (Instrumentation.record "2026-01-01T00:00:00+00:00"
                    (fst (snd (IntelligenceGate.process 0.30
                                 IntelligenceGate.init "aab"))) 0.7 []))
           1 5).
  evaluate.
Defined.

(** Every report of [policy.analyze] carries at least one
    recommendation.  On a log with events each of them is one
    [simulate_action] knows; the single recommendation of the no-data
    report, "collect more observations", is not, and [simulate_action]
    answers "UNKNOWN RECOMMENDATION" to it. *)
Theorem recommendations_actionable
  (log : option (list Instrumentation.log_line))
  (report : gmap string pyval) :
  Policy.analyze log = Some report →
  ∃ recs,
    report !! "recommendations" = Some (PyList (PyStr <$> recs))
    ∧ recs ≠ []
    ∧ (load_events log = [] →
       recs = ["collect more observations"]
       ∧ Policy.simulate_action "collect more observations"
         = "UNKNOWN RECOMMENDATION")
    ∧ (load_events log ≠ [] →
       Forall (fun r => Policy.simulate_action r ≠ "UNKNOWN RECOMMENDATION")
         recs).
Proof.
  unfold Policy.analyze.
  destruct (Nat.eqb_spec (length (load_events log)) 0) as [E|E].
  - intros [= <-]. exists ["collect more observations"].
    split; [evaluate |]. split; [done |]. split; [by split |].
    intros H. by destruct (load_events log).
  - destruct (Policy.sum_field "entropy" _ _) as [se|]; [| discriminate].
    destruct (Policy.sum_field "dampening" _ _) as [sd|]; [| discriminate].
    destruct (Policy.count_stabilized _ _) as [st|]; [| discriminate].
    cbn [mbind option_bind]. intros [= <-].
    do 4 rewrite lookup_insert_ne by done. rewrite lookup_insert_eq.
    destruct (Float.ltb Policy.ENTROPY_TARGET _);
      destruct (Float.ltb Policy.STABILIZATION_TARGET _);
      destruct (Float.ltb _ Policy.DAMPENING_TARGET);
      cbn [app length Nat.eqb];
      match goal with |- ∃ recs, Some (PyList ?L) = _ ∧ _ =>
        exists (omap (fun v => match v with PyStr r => Some r | _ => None end)
                  L)
      end;
      cbn [omap list_omap];
      (split; [reflexivity |]); (split; [done |]);
      (split; [intros H; by destruct (load_events log) |]);
      intros _; repeat (constructor; [evaluate |]); constructor.
Qed.

Lemma recommendations_actionable_witness :
  ∃ recs,
    <[ "status" := PyStr "no-data" ]>
      (<[ "recommendations" := PyList [PyStr "collect more observations"] ]>
         (∅ : gmap string pyval))
    !! "recommendations" = Some (PyList (PyStr <$> recs))
    ∧ recs ≠ []
    ∧ (load_events None = [] →
       recs = ["collect more observations"]
       ∧ Policy.simulate_action "collect more observations"
         = "UNKNOWN RECOMMENDATION")
    ∧ (load_events None ≠ [] →
       Forall (fun r => Policy.simulate_action r ≠ "UNKNOWN RECOMMENDATION")
         recs).
Proof.
  apply (recommendations_actionable None). reflexivity.
Defined.

(** [load_recent(n)] reads the tail of the file as [splitlines] cuts it.
    For [n > 0] it returns at most [n] events; a larger [n] only adds
    earlier events in front; once [n] reaches the number of lines it
    returns every event of the file.  So does [n = 0], where the slice
    [lines[-0:]] is the whole list: the smallest window gives the most
    events, not none. *)
Theorem load_recent_tail (n m : Z) (lines : list Observability.split_line) :
  0 < n ≤ m →
  (length (Observability.load_recent n (Some lines)) ≤ Z.to_nat n)%nat
  ∧ Observability.load_recent n (Some lines)
    `suffix_of` Observability.load_recent m (Some lines)
  ∧ Observability.load_recent m (Some lines)
    `suffix_of` Observability.load_recent 0 (Some lines)
  ∧ Observability.load_recent 0 (Some lines) = omap id lines
  ∧ (Z.of_nat (length lines) ≤ n →
     Observability.load_recent n (Some lines) = omap id lines)
  ∧ Observability.load_recent n None = [].
Proof.
  intros [Hn Hm]. unfold Observability.load_recent, PySeq.from_minus.
  cbv zeta. unfold Observability.split_line in *.
  destruct (Z.ltb_spec 0 n); [| lia]. destruct (Z.ltb_spec 0 m); [| lia].
  change (0 <? 0) with false. cbn iota. change (Z.to_nat (- 0)) with 0%nat.
  rewrite drop_0.
  split; [| split; [| split; [| split; [| split]]]].
  - etrans; [apply length_omap_id |]. rewrite length_drop. lia.
  - exists (omap id (take (length lines - Z.to_nat n - (length lines - Z.to_nat m))
                      (drop (length lines - Z.to_nat m) lines))).
    rewrite <- omap_app. f_equal.
    replace (length lines - Z.to_nat n)%nat
      with ((length lines - Z.to_nat m)
            + (length lines - Z.to_nat n - (length lines - Z.to_nat m)))%nat
      at 2 by lia.
    by rewrite <- drop_drop, take_drop.
  - exists (omap id (take (length lines - Z.to_nat m) lines)).
    by rewrite <- omap_app, take_drop.
  - reflexivity.
  - intros Hlen.
    replace (length lines - Z.to_nat n)%nat with 0%nat by lia.
    by rewrite drop_0.
  - reflexivity.
Qed.

Lemma load_recent_tail_witness :
  let lines : list Observability.split_line :=
    [Some (PyInt 1); None; Some (PyInt 2); Some (PyInt 3)] in
  (length (Observability.load_recent 2 (Some lines)) ≤ Z.to_nat 2)%nat
  ∧ Observability.load_recent 2 (Some lines)
    `suffix_of` Observability.load_recent Observability.WINDOW (Some lines)
  ∧ Observability.load_recent Observability.WINDOW (Some lines)
    `suffix_of` Observability.load_recent 0 (Some lines)
  ∧ Observability.load_recent 0 (Some lines) = [PyInt 1; PyInt 2; PyInt 3]
  ∧ Observability.load_recent Observability.WINDOW (Some lines)
    = [PyInt 1; PyInt 2; PyInt 3].
Proof.
  cbv zeta.
  pose proof (load_recent_tail 2 Observability.WINDOW
                [Some (PyInt 1); None; Some (PyInt 2); Some (PyInt 3)])
    as H.
  destruct H as (H1 & H2 & H3 & H4 & _); [unfold Observability.WINDOW; lia |].
  pose proof (load_recent_tail Observability.WINDOW Observability.WINDOW
                [Some (PyInt 1); None; Some (PyInt 2); Some (PyInt 3)])
    as H.
  destruct H as (_ & _ & _ & _ & H5 & _); [unfold Observability.WINDOW; lia |].
  split; [exact H1 |]. split; [exact H2 |]. split; [exact H3 |].
  split; [exact H4 |]. apply H5.
  unfold Observability.WINDOW. cbn [length]. lia.
Defined.

End LogReaders.
